(** * invenio_logging.sentry: the Sentry logging extension

    A shallow embedding of [src/invenio_logging/sentry.py].  Python values
    are a small inductive type, the mutable objects the module touches (the
    Flask application, the request-local namespace [g], the process-wide
    [sentry_sdk] client, the [werkzeug] logger, the event dictionary handed
    to the before-send hook) are fields of an explicit state, and every
    method is a computation in a state-and-exception monad. *)

From Stdlib Require Import ZArith String List Bool.
From stdpp Require Import gmap strings list fin_maps.

Open Scope string_scope.
Open Scope list_scope.
Open Scope Z_scope.

(** ** Python values *)

#[local] Set Warnings "-register-all".

(** Dictionaries keep their insertion order, so they are association lists;
    only string keys are modelled.  [PyObj] stands for any object the module
    never inspects (functions, classes, instances). *)
Inductive pyval : Type :=
| PyNone
| PyBool (b : bool)
| PyInt (z : Z)
| PyStr (s : string)
| PyTuple (items : list pyval)
| PyList (items : list pyval)
| PyDict (entries : list (string * pyval))
| PyObj (repr : string).

(** [bool(v)] *)
Definition truthy (v : pyval) : bool :=
  match v with
  | PyNone => false
  | PyBool b => b
  | PyInt z => negb (z =? 0)
  | PyStr s => negb (String.eqb s "")
  | PyTuple items | PyList items => negb (Nat.eqb (length items) 0)
  | PyDict entries => negb (Nat.eqb (length entries) 0)
  | PyObj _ => true
  end.

(** [v is None] *)
Definition is_none (v : pyval) : bool :=
  match v with PyNone => true | _ => false end.

(** ** Exceptions and the monad *)

Inductive type_error : Type :=
| MultipleValuesForKeyword (key : string)
| ArgumentAfterStarStarNotAMapping
| AttributeNameNotString.

Inductive exn : Type :=
| KeyError (key : string)
| AttributeError (attr : string)
| TypeError (why : type_error)
| RuntimeError (msg : string)
| ImportError (module : string)
| ClientError (msg : string).

Inductive Res (A : Type) : Type :=
| Ok (a : A)
| Raise (e : exn).
Arguments Ok {A} a.
Arguments Raise {A} e.

(** A computation over a mutable state [S]: the state after the run is
    returned also when an exception escapes, since the mutations made
    before the [raise] stay visible to the caller. *)
Definition M (S A : Type) : Type := S → Res A * S.

Module Import Monad.

Definition ret {S A} (a : A) : M S A := λ s, (Ok a, s).

Definition bind {S A B} (m : M S A) (k : A → M S B) : M S B :=
  λ s, match m s with
       | (Ok a, s') => k a s'
       | (Raise e, s') => (Raise e, s')
       end.

Definition raise {S A} (e : exn) : M S A := λ s, (Raise e, s).

Definition gets {S A} (f : S → A) : M S A := λ s, (Ok (f s), s).

Definition modify {S} (f : S → S) : M S unit := λ s, (Ok tt, f s).

(** [when c m]: an [if] statement without [else]. *)
Definition when {S} (c : bool) (m : M S unit) : M S unit :=
  if c then m else ret tt.

(** The value of [m s] and the state it leaves. *)
Definition result {S A} (r : Res A * S) : Res A := fst r.
Definition final {S A} (r : Res A * S) : S := snd r.

End Monad.

#[global] Instance M_ret {S} : MRet (M S) := λ A, @ret S A.
#[global] Instance M_bind {S} : MBind (M S) := λ A B k m, @bind S A B m k.

(** ** The objects the module works on *)

(** The integration objects of [sentry_sdk.integrations]. *)
Inductive integration : Type :=
| FlaskIntegration
| CeleryIntegration
| SqlalchemyIntegration
| RedisIntegration.

(** The only callable the module hands to the client: the bound method
    [self.add_request_id_sentry_python]. *)
Inductive callback : Type :=
| AddRequestIdSentryPython.

(** One call [sentry_sdk.init(dsn=, in_app_exclude=, integrations=,
    before_send=, **extra)] as the client receives it. *)
Record InitCall : Type := mkInitCall {
  dsn : pyval;
  in_app_exclude : pyval;
  integrations : list integration;
  before_send : callback;
  extra : list (string * pyval)
}.

(** The process-wide state of the [sentry_sdk] package. *)
Record Client : Type := mkClient {
  init_calls : list InitCall;        (* calls of sentry_sdk.init, oldest first *)
  scope_level : option pyval;        (* scope.level, once assigned *)
  last_event_id : pyval              (* what sentry_sdk.last_event_id() reports *)
}.

Inductive handler : Type :=
| StreamHandler.

(** The logger [logging.getLogger("werkzeug")]. *)
Record Logger : Type := mkLogger {
  level : option Z;
  handlers : list handler
}.

(** What lives outside the application object.  [sentry_sdk] is [None]
    when the import at the top of the module failed; [g] is [None] outside
    an application context, where the proxy [flask.g] is unbound and
    falsy. *)
Record World : Type := mkWorld {
  sentry_sdk : option Client;
  g : option (gmap string pyval);
  werkzeug : Logger
}.

(** What [app.extensions] holds.  [InvenioLoggingSentry] stands for the
    instance [self] on which [init_app] runs; a single instance of the
    class is modelled, so two instances cannot be told apart. *)
Inductive extension : Type :=
| InvenioLoggingSentry
| OtherExtension (name : string).

Inductive context_processor : Type :=
| sentry_app_context_closure
| OtherProcessor (name : string).

(** The Flask application: [app.config], [app.debug], the records emitted
    through [app.logger] (level name and message), [app.extensions] and
    the registered template context processors. *)
Record App : Type := mkApp {
  config : gmap string pyval;
  debug : bool;
  logger : list (string * string);
  extensions : gmap string extension;
  context_processors : list context_processor
}.

Record State : Type := mkState {
  app : App;
  world : World
}.

(** The state of one run of the before-send hook: the event dictionary the
    client passes in (mutated in place) and the world. *)
Record HookState : Type := mkHookState {
  event : gmap string pyval;
  hworld : World
}.

(** *** Field updates *)

Definition set_config (c : gmap string pyval) (a : App) : App :=
  mkApp c (debug a) (logger a) (extensions a) (context_processors a).
Definition set_logger (l : list (string * string)) (a : App) : App :=
  mkApp (config a) (debug a) l (extensions a) (context_processors a).
Definition set_extensions (e : gmap string extension) (a : App) : App :=
  mkApp (config a) (debug a) (logger a) e (context_processors a).
Definition set_context_processors (p : list context_processor) (a : App) : App :=
  mkApp (config a) (debug a) (logger a) (extensions a) p.

Definition set_sentry_sdk (c : option Client) (w : World) : World :=
  mkWorld c (g w) (werkzeug w).
Definition set_g (ns : option (gmap string pyval)) (w : World) : World :=
  mkWorld (sentry_sdk w) ns (werkzeug w).
Definition set_werkzeug (l : Logger) (w : World) : World :=
  mkWorld (sentry_sdk w) (g w) l.

Definition on_app (f : App → App) (s : State) : State :=
  mkState (f (app s)) (world s).
Definition on_world (f : World → World) (s : State) : State :=
  mkState (app s) (f (world s)).
Definition on_event (f : gmap string pyval → gmap string pyval) (s : HookState) : HookState :=
  mkHookState (f (event s)) (hworld s).

(** ** Python primitives the module uses *)

(** [d[key]] on [app.config]. *)
Definition getitem (key : string) (d : gmap string pyval) : Res pyval :=
  match d !! key with
  | Some v => Ok v
  | None => Raise (KeyError key)
  end.

(** [d.setdefault(key, v)], as a function of the dictionary. *)
Definition setdefault (key : string) (v : pyval) (d : gmap string pyval)
  : gmap string pyval :=
  match d !! key with
  | Some _ => d
  | None => <[key := v]> d
  end.

(** [d.get("tags") or []] *)
Definition get_or_empty_list (key : string) (d : gmap string pyval) : pyval :=
  match d !! key with
  | Some v => if truthy v then v else PyList []
  | None => PyList []
  end.

(** [tags.append(x)]: only lists have the method. *)
Definition append (tags x : pyval) : Res pyval :=
  match tags with
  | PyList items => Ok (PyList (items ++ [x]))
  | _ => Raise (AttributeError "append")
  end.

(** *** The [logging] module *)

(** The severity-level names of the logging framework with their numeric
    values. *)
Definition level_table : list (string * Z) :=
  [("CRITICAL", 50); ("FATAL", 50); ("ERROR", 40); ("WARNING", 30);
   ("WARN", 30); ("INFO", 20); ("DEBUG", 10); ("NOTSET", 0)].

Fixpoint assoc {A} (key : string) (l : list (string * A)) : option A :=
  match l with
  | [] => None
  | (k, v) :: rest => if String.eqb k key then Some v else assoc key rest
  end.

Definition is_level_name (name : string) : bool :=
  match assoc name level_table with Some _ => true | None => false end.

(** A namespace of the [logging] module for concrete runs: the level
    constants, and the two callables [install_handler] itself fetches from
    the module ([logging.getLogger], [logging.StreamHandler]).  The real
    module has more attributes, which is why the development below is
    stated for an arbitrary namespace. *)
Definition stdlib_logging (name : string) : option pyval :=
  match assoc name level_table with
  | Some n => Some (PyInt n)
  | None =>
      if String.eqb name "getLogger" then Some (PyObj "<function getLogger>")
      else if String.eqb name "StreamHandler" then Some (PyObj "<class StreamHandler>")
      else None
  end.

(** [getattr(module, name)] on a module with the given namespace. *)
Definition getattr_module (namespace : string → option pyval) (name : pyval)
  : Res pyval :=
  match name with
  | PyStr s =>
      match namespace s with
      | Some v => Ok v
      | None => Raise (AttributeError s)
      end
  | _ => Raise (TypeError AttributeNameNotString)
  end.

Definition logging_INFO : Z := 20.

(** ** The before-send hook and the context processor *)

(** [g and hasattr(g, "request_id")] *)
Definition g_has (attr : string) (w : World) : bool :=
  match g w with
  | Some ns => bool_decide (is_Some (ns !! attr))
  | None => false
  end.

Definition lift {S A} (r : Res A) : M S A :=
  match r with Ok a => ret a | Raise e => raise e end.

(** What the unbound proxy raises on attribute access (the first line of
    the framework's message). *)
Definition outside_context : exn :=
  RuntimeError "Working outside of application context.".

(** [g.attr] *)
Definition g_getattr {S} (world_of : S → World) (attr : string) : M S pyval :=
  λ s, match g (world_of s) with
       | Some ns =>
           match ns !! attr with
           | Some v => (Ok v, s)
           | None => (Raise (AttributeError attr), s)
           end
       | None => (Raise outside_context, s)
       end.

(** [g.attr = v]: fails on the unbound proxy. *)
Definition g_setattr (attr : string) (v : pyval) (w : World) : Res World :=
  match g w with
  | Some ns => Ok (set_g (Some (<[attr := v]> ns)) w)
  | None => Raise outside_context
  end.

(** [sentry_sdk.last_event_id()]; on [sentry_sdk = None] the attribute
    lookup fails. *)
Definition sdk_last_event_id (w : World) : Res pyval :=
  match sentry_sdk w with
  | Some c => Ok (last_event_id c)
  | None => Raise (AttributeError "last_event_id")
  end.

(** A step that only touches the world, inside a hook run. *)
Definition in_world {A} (f : World → Res A * World) : M HookState A :=
  λ s, let '(r, w') := f (hworld s) in (r, mkHookState (event s) w').

(** [g.attr = v] as a computation on the world. *)
Definition g_assign (attr : string) (v : pyval) : M World unit :=
  λ w, match g_setattr attr v w with
       | Ok w' => (Ok tt, w')
       | Raise e => (Raise e, w)
       end.

(** [add_request_id_sentry_python(self, event, hint)].  The event is the
    [event] field of the state; the returned value is that same object. *)
Definition add_request_id_sentry_python (hint : pyval)
  : M HookState (gmap string pyval) :=
  has_id ← gets (λ s, g_has "request_id" (hworld s));
  when has_id (
    tags ← gets (λ s, get_or_empty_list "tags" (event s));
    rid ← g_getattr hworld "request_id";
    tags' ← lift (append tags (PyList [PyStr "request_id"; rid]));
    modify (on_event (<["tags" := tags']>)));;
  event_id ← in_world (λ w, (sdk_last_event_id w, w));
  when (negb (is_none event_id)) (
    in_world (g_assign "sentry_event_id" event_id));;
  gets event.

(** The closure [sentry_app_context] that [init_app] registers (the tag
    [sentry_app_context_closure] in [context_processors]). *)
Definition sentry_app_context : M World (gmap string pyval) :=
  event_id ← (λ w, (sdk_last_event_id w, w));
  g_assign "sentry_event_id" event_id;;
  v ← g_getattr id "sentry_event_id";
  mret ({[ "sentry_event_id" := v ]} : gmap string pyval).

(** The value of the request-local event marker, [None] when [g] is
    unbound or has no such attribute. *)
Definition marker (w : World) : option pyval :=
  match g w with
  | Some ns => ns !! "sentry_event_id"
  | None => None
  end.

(** ** Application initialisation *)

(** The keyword names [install_sentry_sdk_handler] writes out in its call
    of [sentry_sdk.init]. *)
Definition explicit_keywords : list string :=
  ["dsn"; "in_app_exclude"; "integrations"; "before_send"].

Definition is_explicit_keyword (k : string) : bool :=
  existsb (String.eqb k) explicit_keywords.

(** [**init_kwargs] next to the explicit keywords of the call: the
    interpreter unpacks the mapping before the callee is entered; a value
    that is not a mapping, or a key that repeats an explicit keyword,
    raises [TypeError] and the callee never sees the call. *)
Definition unpack_keywords (init_kwargs : pyval) : Res (list (string * pyval)) :=
  match init_kwargs with
  | PyDict entries =>
      match find is_explicit_keyword (entries.*1) with
      | Some k => Raise (TypeError (MultipleValuesForKeyword k))
      | None => Ok entries
      end
  | _ => Raise (TypeError ArgumentAfterStarStarNotAMapping)
  end.

(** The six logger-name prefixes of [install_handler]. *)
Definition fixed_exclusions : pyval :=
  PyTuple [PyStr "gunicorn"; PyStr "south"; PyStr "sentry.errors";
           PyStr "django.request"; PyStr "dill"; PyStr "py.warnings"].

Definition missing_sdk_warning : string :=
  "The `SENTRY_DSN` config is set, but `sentry-sdk` is not installed. " +:+
  "Please install `sentry-sdk` to use the Sentry logging extension.".

Section Extension.

(** The attributes of the sibling module [config] ([dir(config)] with
    the value of each name); the module is not part of this file. *)
Variable config_module : list (string * pyval).

(** The namespace of the standard [logging] module. *)
Variable logging_module : string → option pyval.

(** The client library's own verdict on a call of [sentry_sdk.init]:
    [Some msg] when the call raises (a malformed DSN, say). *)
Variable client_init_fails : InitCall → option string.

(** [app.config[key]] *)
Definition config_get (key : string) : M State pyval :=
  λ s, (getitem key (config (app s)), s).

(** [init_config], as a function of [app.config]. *)
Definition merge_defaults (cfg : gmap string pyval) : gmap string pyval :=
  foldl (λ d kv,
           if String.prefix "LOGGING_SENTRY" kv.1 || String.prefix "SENTRY_" kv.1
           then setdefault kv.1 kv.2 d
           else d)
        cfg config_module.

Definition init_config : M State unit :=
  modify (on_app (λ a, set_config (merge_defaults (config a)) a)).

(** The client is entered: it records the call and may reject it. *)
Definition enter_sentry_sdk_init (call : InitCall) : M State unit :=
  λ s, match sentry_sdk (world s) with
       | None => (Raise (AttributeError "init"), s)
       | Some c =>
           let c' := mkClient (init_calls c ++ [call]) (scope_level c)
                              (last_event_id c) in
           let s' := on_world (set_sentry_sdk (Some c')) s in
           match client_init_fails call with
           | Some msg => (Raise (ClientError msg), s')
           | None => (Ok tt, s')
           end
       end.

(** The call [sentry_sdk.init(dsn=.., in_app_exclude=.., integrations=..,
    before_send=.., **init_kwargs)]: the keywords are unpacked first. *)
Definition call_sentry_sdk_init (dsn_v excl : pyval) (ints : list integration)
    (hook : callback) (init_kwargs : pyval) : M State unit :=
  entries ← lift (unpack_keywords init_kwargs);
  enter_sentry_sdk_init (mkInitCall dsn_v excl ints hook entries).

(** [with configure_scope() as scope: scope.level = level] *)
Definition set_scope_level (lvl : pyval) : M State unit :=
  modify (on_world (λ w,
    match sentry_sdk w with
    | Some c => set_sentry_sdk
                  (Some (mkClient (init_calls c) (Some lvl) (last_event_id c))) w
    | None => w
    end)).

(** The imports at the head of [install_sentry_sdk_handler], as far as
    the package [sentry_sdk] itself decides them: they fail when the
    package is not importable.  An integration module can also refuse to
    import when the library it instruments is not installed; that is not
    modelled, so whatever below says that a call reaches the client is
    about an installation where the four integration modules import. *)
Definition import_sentry_sdk : M State unit :=
  λ s, match sentry_sdk (world s) with
       | Some _ => (Ok tt, s)
       | None => (Raise (ImportError "sentry_sdk"), s)
       end.

Definition install_sentry_sdk_handler (logging_exclusions lvl : pyval)
  : M State unit :=
  import_sentry_sdk;;
  let integrations := [FlaskIntegration] in
  let init_kwargs := PyDict [] in
  celery ← config_get "LOGGING_SENTRY_CELERY";
  let integrations :=
    if truthy celery then integrations ++ [CeleryIntegration] else integrations in
  sqlalchemy ← config_get "LOGGING_SENTRY_SQLALCHEMY";
  let integrations :=
    if truthy sqlalchemy then integrations ++ [SqlalchemyIntegration] else integrations in
  redis ← config_get "LOGGING_SENTRY_REDIS";
  let integrations :=
    if truthy redis then integrations ++ [RedisIntegration] else integrations in
  kwargs ← config_get "LOGGING_SENTRY_INIT_KWARGS";
  let init_kwargs := if truthy kwargs then kwargs else init_kwargs in
  dsn_v ← config_get "SENTRY_DSN";
  call_sentry_sdk_init dsn_v logging_exclusions integrations
                       AddRequestIdSentryPython init_kwargs;;
  set_scope_level lvl.

Definition install_handler : M State unit :=
  name ← config_get "LOGGING_SENTRY_LEVEL";
  lvl ← lift (getattr_module logging_module name);
  let logging_exclusions := PyNone in
  pywarnings ← config_get "LOGGING_SENTRY_PYWARNINGS";
  let logging_exclusions :=
    if negb (truthy pywarnings) then fixed_exclusions else logging_exclusions in
  install_sentry_sdk_handler logging_exclusions lvl;;
  dbg ← gets (λ s, debug (app s));
  when dbg (
    modify (on_world (λ w,
      set_werkzeug (mkLogger (Some logging_INFO)
                             (handlers (werkzeug w) ++ [StreamHandler])) w))).

Definition init_app : M State unit :=
  init_config;;
  dsn_v ← config_get "SENTRY_DSN";
  if is_none dsn_v then mret tt
  else
    sdk ← gets (λ s, sentry_sdk (world s));
    match sdk with
    | None =>
        modify (on_app (λ a,
          set_logger (logger a ++ [("WARNING", missing_sdk_warning)]) a))
    | Some _ =>
        install_handler;;
        modify (on_app (λ a,
          set_extensions (<["invenio-logging-sentry" := InvenioLoggingSentry]>
                            (extensions a)) a));;
        modify (on_app (λ a,
          set_context_processors
            (context_processors a ++ [sentry_app_context_closure]) a))
    end.

End Extension.

(** The names [init_config] copies from the module [config]. *)
Definition is_sentry_setting (k : string) : bool :=
  String.prefix "LOGGING_SENTRY" k || String.prefix "SENTRY_" k.

(** The calls of [sentry_sdk.init] the client has seen so far. *)
Definition calls (s : State) : list InitCall :=
  match sentry_sdk (world s) with
  | Some c => init_calls c
  | None => []
  end.

(** The state once the client has seen one more call of
    [sentry_sdk.init], with the scope level as given. *)
Definition after_init (c : Client) (call : InitCall) (lvl : option pyval)
    (s : State) : State :=
  on_world (set_sentry_sdk
              (Some (mkClient (init_calls c ++ [call]) lvl (last_event_id c)))) s.

(** ** The specification's wording, for comparison *)

(** "Unset (null or empty string)". *)
Definition spec_dsn_unset (v : pyval) : bool :=
  match v with
  | PyNone => true
  | PyStr s => String.eqb s ""
  | _ => false
  end.

(** The context processor as the specification words it: read the marker,
    ask the client only when the marker is absent. *)
Definition spec_sentry_app_context : M World (gmap string pyval) :=
  λ w, match marker w with
       | Some v => (Ok {[ "sentry_event_id" := v ]}, w)
       | None =>
           match sdk_last_event_id w with
           | Ok v => (Ok {[ "sentry_event_id" := v ]}, w)
           | Raise e => (Raise e, w)
           end
       end.

(** The toggle that governs an integration; the web-framework one has
    none. *)
Definition toggle_of (i : integration) : option string :=
  match i with
  | FlaskIntegration => None
  | CeleryIntegration => Some "LOGGING_SENTRY_CELERY"
  | SqlalchemyIntegration => Some "LOGGING_SENTRY_SQLALCHEMY"
  | RedisIntegration => Some "LOGGING_SENTRY_REDIS"
  end.

Definition toggle_on (cfg : gmap string pyval) (i : integration) : bool :=
  match toggle_of i with
  | Some key => match cfg !! key with Some v => truthy v | None => false end
  | None => true
  end.

(** Web framework first, then the three optional ones in their fixed
    order, each kept exactly when its toggle is true. *)
Definition spec_integrations (cfg : gmap string pyval) : list integration :=
  FlaskIntegration ::
  List.filter (toggle_on cfg)
              [CeleryIntegration; SqlalchemyIntegration; RedisIntegration].

(** The call of [sentry_sdk.init] that [install_handler] makes from a
    configuration with the given DSN, warnings toggle and extra keyword
    arguments. *)
Definition planned_call (cfg : gmap string pyval) (dsn_v pywarnings : pyval)
    (entries : list (string * pyval)) : InitCall :=
  mkInitCall dsn_v (if negb (truthy pywarnings) then fixed_exclusions else PyNone)
             (spec_integrations cfg) AddRequestIdSentryPython entries.

(** ** Concrete runs *)

Module Demo.

Definition quiet_werkzeug : Logger := mkLogger None [].

Definition fresh_client (last : pyval) : Client := mkClient [] None last.

(** Inside a request that carries a request id; the client reports
    event [e1]. *)
Definition in_request : World :=
  mkWorld (Some (fresh_client (PyStr "e1")))
          (Some {[ "request_id" := PyStr "r1" ]})
          quiet_werkzeug.

Definition old_tag : pyval := PyList [PyStr "release"; PyStr "1.0"].

Definition tagged_event : gmap string pyval :=
  {[ "tags" := PyList [old_tag]; "message" := PyStr "boom" ]}.


(** Outside any application context. *)
Definition no_context : World :=
  mkWorld (Some (fresh_client (PyStr "e1"))) None quiet_werkzeug.

(** A request whose marker was written earlier, while the client now
    reports no event. *)
Definition stale_marker : World :=
  mkWorld (Some (fresh_client PyNone))
          (Some {[ "sentry_event_id" := PyStr "e0" ]})
          quiet_werkzeug.

(** A request whose marker holds [e0] while the client reports [e1]. *)
Definition marker_behind : World :=
  mkWorld (Some (fresh_client (PyStr "e1")))
          (Some {[ "sentry_event_id" := PyStr "e0" ]})
          quiet_werkzeug.

(** A client that accepts every call of [sentry_sdk.init]. *)
Definition accepting_client : InitCall → option string := λ _, None.

Definition settings (dsn_v level_name kwargs : pyval) : gmap string pyval :=
  list_to_map
    [("SENTRY_DSN", dsn_v);
     ("LOGGING_SENTRY_LEVEL", level_name);
     ("LOGGING_SENTRY_PYWARNINGS", PyBool false);
     ("LOGGING_SENTRY_CELERY", PyBool true);
     ("LOGGING_SENTRY_SQLALCHEMY", PyBool false);
     ("LOGGING_SENTRY_REDIS", PyBool true);
     ("LOGGING_SENTRY_INIT_KWARGS", kwargs)].

Definition application (cfg : gmap string pyval) : App :=
  mkApp cfg false [] ∅ [].

Definition startup : World :=
  mkWorld (Some (fresh_client PyNone)) None quiet_werkzeug.

Definition startup_without_sdk : World :=
  mkWorld None None quiet_werkzeug.

Definition some_dsn : pyval := PyStr "https://key@sentry.example.org/1".

(** A fully configured application at start-up. *)
Definition ready : State :=
  mkState (application (settings some_dsn (PyStr "WARNING") (PyDict []))) startup.

(** The same with the client library missing. *)
Definition ready_without_sdk : State :=
  mkState (application (settings some_dsn (PyStr "WARNING") (PyDict [])))
          startup_without_sdk.

(** The DSN set to the empty string. *)
Definition dsn_empty : State :=
  mkState (application (settings (PyStr "") (PyStr "WARNING") (PyDict []))) startup.

(** The level set to a name the [logging] module does not have, and to
    the name of one of its functions. *)
Definition level_bogus : State :=
  mkState (application (settings some_dsn (PyStr "BOGUS") (PyDict []))) startup.
Definition level_getLogger : State :=
  mkState (application (settings some_dsn (PyStr "getLogger") (PyDict []))) startup.

(** The same application with interpreter warnings included. *)
Definition ready_pywarnings : State :=
  mkState (application (<["LOGGING_SENTRY_PYWARNINGS" := PyBool true]>
                          (settings some_dsn (PyStr "WARNING") (PyDict []))))
          startup.

(** A stand-in for the sibling module [config], and an application that
    configures nothing itself. *)
Definition defaults : list (string * pyval) :=
  [("LOGGING_SENTRY_LEVEL", PyStr "WARNING");
   ("SENTRY_DSN", PyNone);
   ("__name__", PyStr "invenio_logging.config")].
Definition unconfigured : State :=
  mkState (application ∅) startup.

(** The fully configured application in debug mode. *)
Definition ready_debug : State :=
  mkState (mkApp (settings some_dsn (PyStr "WARNING") (PyDict [])) true [] ∅ [])
          startup.

(** The fully configured application with extra keyword arguments for the
    client. *)
Definition extra_kwargs : list (string * pyval) :=
  [("environment", PyStr "prod"); ("debug", PyBool false)].
Definition ready_kwargs : State :=
  mkState (application (settings some_dsn (PyStr "WARNING") (PyDict extra_kwargs)))
          startup.

(** Extra keyword arguments that are no mapping. *)
Definition kwargs_not_a_mapping : State :=
  mkState (application (settings some_dsn (PyStr "WARNING")
                                 (PyList [PyStr "environment"])))
          startup.

(** A client that rejects every call of [sentry_sdk.init]. *)
Definition rejecting_client : InitCall → option string :=
  λ _, Some "Unsupported scheme".

(** An application that sets a level of its own and leaves the rest to
    [defaults]. *)
Definition own_level : gmap string pyval :=
  {[ "LOGGING_SENTRY_LEVEL" := PyStr "ERROR"; "SECRET_KEY" := PyStr "s3cr3t" ]}.

(** Extra keyword arguments that repeat an explicit keyword. *)
Definition clashing_kwargs : list (string * pyval) :=
  [("environment", PyStr "prod"); ("before_send", PyNone)].
Definition kwargs_clash : State :=
  mkState (application (settings some_dsn (PyStr "WARNING") (PyDict clashing_kwargs)))
          startup.

End Demo.

(** * Properties *)

(** ** Unfolding the monad *)

Ltac run :=
  cbv beta delta [mbind M_bind mret M_ret bind ret raise gets modify when lift
                  in_world result final];
  cbn [fst snd].

(** Case analysis on a run of the hook or of the context processor. *)
Ltac hook_cases :=
  unfold add_request_id_sentry_python, sentry_app_context, g_has, g_getattr,
    g_assign, g_setattr, sdk_last_event_id, marker;
  run; cbn;
  repeat first
    [ match goal with
      | H : g _ = _ |- _ => rewrite H
      | H : sentry_sdk _ = _ |- _ => rewrite H
      | H : _ !! _ = _ |- _ => rewrite H
      | H : is_none _ = _ |- _ => rewrite H
      | H : get_or_empty_list _ _ = _ |- _ => rewrite H
      | H : truthy _ = _ |- _ => rewrite H
      end
    | progress cbn
    | match goal with
      | |- context [match g ?v with _ => _ end] =>
          destruct (g v) as [?ns|] eqn:?
      | |- context [bool_decide (is_Some (?m !! ?k))] =>
          destruct (m !! k) as [?rid|] eqn:?
      | |- context [match ?m !! "request_id" with _ => _ end] =>
          destruct (m !! "request_id") as [?rid|] eqn:?
      | |- context [match append ?t ?x with _ => _ end] =>
          destruct (append t x) as [?tags|?e] eqn:?
      | |- context [match sentry_sdk ?v with _ => _ end] =>
          destruct (sentry_sdk v) as [?c|] eqn:?
      | |- context [is_none (last_event_id ?c)] =>
          destruct (is_none (last_event_id c)) eqn:?
      end ];
  try done.

(** ** The before-send hook *)

Section Hook.

Implicit Types (ev : gmap string pyval) (w : World) (hint : pyval).

Lemma g_has_true w attr :
  g_has attr w = true ↔ ∃ ns v, g w = Some ns ∧ ns !! attr = Some v.
Proof.
  unfold g_has. destruct (g w) as [ns|].
  - rewrite bool_decide_eq_true. split.
    + intros [v Hv]. eauto.
    + intros (ns' & v & [= <-] & Hv). eauto.
  - split; [discriminate | intros (? & ? & [=] & _)].
Qed.


(** The event once the hook is done, whatever the outcome. *)
Lemma hook_event_after hint ev w :
  event (final (add_request_id_sentry_python hint (mkHookState ev w))) =
  match g w with
  | Some ns =>
      match ns !! "request_id" with
      | Some rid =>
          match append (get_or_empty_list "tags" ev)
                       (PyList [PyStr "request_id"; rid]) with
          | Ok tags' => <["tags" := tags']> ev
          | Raise _ => ev
          end
      | None => ev
      end
  | None => ev
  end.
Proof. hook_cases. Qed.

(** The outcome of the hook. *)
Lemma hook_result hint ev w :
  result (add_request_id_sentry_python hint (mkHookState ev w)) =
  match g w with
  | Some ns =>
      match ns !! "request_id" with
      | Some rid =>
          match append (get_or_empty_list "tags" ev)
                       (PyList [PyStr "request_id"; rid]) with
          | Ok tags' =>
              match sentry_sdk w with
              | Some _ => Ok (<["tags" := tags']> ev)
              | None => Raise (AttributeError "last_event_id")
              end
          | Raise e => Raise e
          end
      | None =>
          match sentry_sdk w with
          | Some _ => Ok ev
          | None => Raise (AttributeError "last_event_id")
          end
      end
  | None =>
      match sentry_sdk w with
      | Some c =>
          if is_none (last_event_id c) then Ok ev
          else Raise outside_context
      | None => Raise (AttributeError "last_event_id")
      end
  end.
Proof. hook_cases. Qed.

(** The world once the hook is done: only the marker can change, and
    only when the hook gets as far as a non-null event id inside a
    context. *)
Lemma hook_world_after hint ev w :
  hworld (final (add_request_id_sentry_python hint (mkHookState ev w))) =
  match result (add_request_id_sentry_python hint (mkHookState ev w)),
        g w, sentry_sdk w with
  | Ok _, Some ns, Some c =>
      if is_none (last_event_id c) then w
      else set_g (Some (<["sentry_event_id" := last_event_id c]> ns)) w
  | _, _, _ => w
  end.
Proof. hook_cases. Qed.

(** The tags the event already has: a list, or nothing (no entry, or an
    entry that is falsy). *)
Lemma get_or_empty_list_tags ev items :
  ev !! "tags" = Some (PyList items)
    ∨ (items = [] ∧ ∀ v, ev !! "tags" = Some v → truthy v = false) →
  get_or_empty_list "tags" ev = PyList items.
Proof.
  unfold get_or_empty_list. intros [-> | [-> Hfalsy]].
  - by destruct items.
  - destruct (ev !! "tags") as [v|]; [|done]. by rewrite (Hfalsy v).
Qed.

(** Tags of any other shape have no [append]: the hook raises and the
    event stays as it was. *)
Lemma hook_tags_not_a_list hint ev w ns rid v :
  g w = Some ns → ns !! "request_id" = Some rid →
  ev !! "tags" = Some v → truthy v = true →
  (∀ items, v ≠ PyList items) →
  add_request_id_sentry_python hint (mkHookState ev w) =
    (Raise (AttributeError "append"), mkHookState ev w).
Proof.
  intros Hg Hrid Htags Htruthy Hshape.
  hook_cases.
  all: match goal with
       | H : append _ _ = _ |- _ =>
           unfold get_or_empty_list in H; rewrite Htags, Htruthy in H
       end.
  all: destruct v; simplify_eq/=; try done; exfalso; by eapply Hshape.
Qed.


(** When the client reports no event the hook leaves the world, and with
    it the marker, as it found them. *)
Lemma hook_null_event_id_keeps_world hint ev w c :
  sentry_sdk w = Some c → is_none (last_event_id c) = true →
  hworld (final (add_request_id_sentry_python hint (mkHookState ev w))) = w.
Proof.
  intros Hc Hnone. rewrite hook_world_after, Hc, Hnone.
  by repeat case_match.
Qed.

(** C7, amended: when the client reports a non-null [last_event_id()],
    then right after the hook returns the request-local marker holds
    exactly that value, which the client still reports; and the hook does
    return inside a request whose event has list-shaped (or no) tags. *)
Theorem hook_marker_matches_last_event_id hint ev w c :
  sentry_sdk w = Some c →
  is_none (last_event_id c) = false →
  (∀ ev',
     result (add_request_id_sentry_python hint (mkHookState ev w)) = Ok ev' →
     marker (hworld (final (add_request_id_sentry_python hint (mkHookState ev w))))
       = Some (last_event_id c)
     ∧ sdk_last_event_id
         (hworld (final (add_request_id_sentry_python hint (mkHookState ev w))))
       = Ok (last_event_id c))
  ∧ (∀ ns,
       g w = Some ns →
       ns !! "request_id" = None
         ∨ (∃ items, get_or_empty_list "tags" ev = PyList items) →
       ∃ ev', result (add_request_id_sentry_python hint (mkHookState ev w)) = Ok ev').
Proof.
  intros Hc Hid. split.
  - intros ev' Hret. rewrite hook_world_after, Hret, Hc, Hid.
    rewrite hook_result, Hc, Hid in Hret.
    destruct (g w) as [ns|] eqn:Hg; [|done].
    unfold marker, sdk_last_event_id. cbn. by rewrite lookup_insert_eq, Hc.
  - intros ns Hg Hshape. rewrite hook_result, Hg, Hc.
    destruct (ns !! "request_id") as [rid|]; [|eauto].
    destruct Hshape as [[=] | [items ->]]. cbn. eauto.
Qed.

(** C9: outside a request context the write of the marker is not
    guarded: when [g] is unbound and the client reports a non-null id,
    the hook raises instead of returning the event, and the event has not
    been tagged. *)
Theorem hook_raises_outside_context hint ev w c :
  g w = None →
  sentry_sdk w = Some c →
  is_none (last_event_id c) = false →
  add_request_id_sentry_python hint (mkHookState ev w) =
    (Raise outside_context, mkHookState ev w).
Proof. intros Hg Hc Hid. hook_cases. Qed.

(** C2, amended: the context processor asks the client for
    [last_event_id()] on every call, stores the answer in the
    request-local marker over whatever was there, and returns the mapping
    with that value under [sentry_event_id]. *)
Theorem sentry_app_context_queries_client w c ns :
  sentry_sdk w = Some c →
  g w = Some ns →
  sentry_app_context w =
    (Ok {[ "sentry_event_id" := last_event_id c ]},
     set_g (Some (<["sentry_event_id" := last_event_id c]> ns)) w).
Proof. intros Hc Hg. hook_cases. by rewrite lookup_insert_eq. Qed.

End Hook.

(** *** The hook and the context processor on concrete requests *)



(** C7 as stated fails: the client reports no event, the hook returns, and
    the marker still holds the id written earlier in the request. *)
Lemma hook_marker_stale_counterexample :
  result (add_request_id_sentry_python PyNone (mkHookState ∅ Demo.stale_marker)) = Ok ∅
  ∧ sdk_last_event_id
      (hworld (final (add_request_id_sentry_python PyNone
                        (mkHookState ∅ Demo.stale_marker)))) = Ok PyNone
  ∧ marker
      (hworld (final (add_request_id_sentry_python PyNone
                        (mkHookState ∅ Demo.stale_marker)))) = Some (PyStr "e0")
  ∧ Some (PyStr "e0") ≠ Some PyNone.
Proof. repeat split; try (vm_compute; reflexivity). discriminate. Qed.

Lemma hook_marker_matches_last_event_id_witness :
  marker (hworld (final (add_request_id_sentry_python PyNone
                           (mkHookState Demo.tagged_event Demo.in_request))))
    = Some (PyStr "e1")
  ∧ sdk_last_event_id
      (hworld (final (add_request_id_sentry_python PyNone
                        (mkHookState Demo.tagged_event Demo.in_request))))
    = Ok (PyStr "e1").
Proof.
  destruct (hook_marker_matches_last_event_id PyNone Demo.tagged_event
              Demo.in_request (Demo.fresh_client (PyStr "e1")) eq_refl eq_refl)
    as [Hmarker Hreturns].
  destruct (Hreturns {[ "request_id" := PyStr "r1" ]} eq_refl) as [ev' Hev'].
  - right. exists [Demo.old_tag]. vm_compute; reflexivity.
  - exact (Hmarker ev' Hev').
Defined.

Lemma hook_raises_outside_context_witness :
  add_request_id_sentry_python PyNone (mkHookState Demo.tagged_event Demo.no_context) =
    (Raise outside_context, mkHookState Demo.tagged_event Demo.no_context).
Proof.
  apply (hook_raises_outside_context PyNone Demo.tagged_event Demo.no_context
           (Demo.fresh_client (PyStr "e1"))); reflexivity.
Defined.

(** C2 as stated fails: the marker is present and holds [e0], yet the
    callback asks the client and exposes [e1]; the callback of the
    specification would expose [e0]. *)
Lemma sentry_app_context_counterexample :
  marker Demo.marker_behind = Some (PyStr "e0")
  ∧ result (sentry_app_context Demo.marker_behind) =
      Ok {[ "sentry_event_id" := PyStr "e1" ]}
  ∧ result (spec_sentry_app_context Demo.marker_behind) =
      Ok {[ "sentry_event_id" := PyStr "e0" ]}
  ∧ marker (final (sentry_app_context Demo.marker_behind)) = Some (PyStr "e1").
Proof. repeat split; vm_compute; reflexivity. Qed.

Lemma sentry_app_context_queries_client_witness :
  sentry_app_context Demo.marker_behind =
    (Ok {[ "sentry_event_id" := PyStr "e1" ]},
     set_g (Some (<["sentry_event_id" := PyStr "e1"]>
                    {[ "sentry_event_id" := PyStr "e0" ]})) Demo.marker_behind).
Proof.
  apply (sentry_app_context_queries_client Demo.marker_behind
           (Demo.fresh_client (PyStr "e1")) {[ "sentry_event_id" := PyStr "e0" ]});
    reflexivity.
Defined.

(** Case analysis on a run of the installation path. *)
Ltac install_cases :=
  unfold install_handler, install_sentry_sdk_handler, import_sentry_sdk,
    config_get, getitem, call_sentry_sdk_init, enter_sentry_sdk_init,
    set_scope_level, getattr_module;
  run; cbn;
  repeat first
    [ match goal with
      | H : sentry_sdk _ = _ |- _ => rewrite H
      | H : _ !! _ = _ |- _ => rewrite H
      | H : unpack_keywords _ = _ |- _ => rewrite H
      end
    | progress cbn
    | match goal with
      | |- context [match sentry_sdk ?w with _ => _ end] =>
          destruct (sentry_sdk w) as [?c|] eqn:?
      | |- context [match ?m !! ?k with _ => _ end] =>
          destruct (m !! k) as [?v|] eqn:?
      | |- context [match unpack_keywords ?x with _ => _ end] =>
          destruct (unpack_keywords x) as [?entries|?e] eqn:?
      | |- context [match ?f ?call with Some _ => _ | None => _ end] =>
          destruct (f call) as [?msg|] eqn:?
      end ].

(** ** Installing the handler *)

Section Install.

Variable logging_module : string → option pyval.
Variable client_init_fails : InitCall → option string.

Implicit Types (s : State) (c : Client) (cfg : gmap string pyval).

(** The three appends of [install_sentry_sdk_handler] build the list the
    specification describes. *)
Lemma integrations_assembled cfg vc vs vr :
  cfg !! "LOGGING_SENTRY_CELERY" = Some vc →
  cfg !! "LOGGING_SENTRY_SQLALCHEMY" = Some vs →
  cfg !! "LOGGING_SENTRY_REDIS" = Some vr →
  (let l := [FlaskIntegration] in
   let l := if truthy vc then l ++ [CeleryIntegration] else l in
   let l := if truthy vs then l ++ [SqlalchemyIntegration] else l in
   if truthy vr then l ++ [RedisIntegration] else l)
  = spec_integrations cfg.
Proof.
  intros Hc Hs Hr. unfold spec_integrations, toggle_on. cbn.
  rewrite Hc, Hs, Hr.
  by destruct (truthy vc), (truthy vs), (truthy vr).
Qed.

(** A run of [install_sentry_sdk_handler] that gets as far as the
    client. *)
Lemma install_sentry_sdk_handler_run s excl lvl c vc vs vr kw d entries :
  sentry_sdk (world s) = Some c →
  config (app s) !! "LOGGING_SENTRY_CELERY" = Some vc →
  config (app s) !! "LOGGING_SENTRY_SQLALCHEMY" = Some vs →
  config (app s) !! "LOGGING_SENTRY_REDIS" = Some vr →
  config (app s) !! "LOGGING_SENTRY_INIT_KWARGS" = Some kw →
  config (app s) !! "SENTRY_DSN" = Some d →
  unpack_keywords (if truthy kw then kw else PyDict []) = Ok entries →
  install_sentry_sdk_handler client_init_fails excl lvl s =
    let call := mkInitCall d excl (spec_integrations (config (app s)))
                           AddRequestIdSentryPython entries in
    match client_init_fails call with
    | Some msg => (Raise (ClientError msg), after_init c call (scope_level c) s)
    | None => (Ok tt, after_init c call (Some lvl) s)
    end.
Proof.
  intros Hsdk Hc Hs Hr Hkw Hd Hunpack.
  rewrite <- (integrations_assembled _ _ _ _ Hc Hs Hr).
  unfold install_sentry_sdk_handler, import_sentry_sdk, config_get, getitem, call_sentry_sdk_init,
    enter_sentry_sdk_init, set_scope_level.
  run. cbn.
  repeat first
    [ rewrite Hsdk | rewrite Hc | rewrite Hs | rewrite Hr | rewrite Hkw
    | rewrite Hd | rewrite Hunpack | progress cbn ].
  destruct (truthy vc), (truthy vs), (truthy vr); cbn;
    destruct (client_init_fails _) as [msg|];
    repeat first [ rewrite Hsdk | progress cbn ];
    by destruct s.
Qed.

(** Whatever [install_sentry_sdk_handler] raises, it is not an
    [AttributeError]. *)
Lemma install_sentry_sdk_handler_no_attribute_error s excl lvl a :
  result (install_sentry_sdk_handler client_init_fails excl lvl s)
    ≠ Raise (AttributeError a).
Proof.
  install_cases; try done.
  all: match goal with
       | H : unpack_keywords ?x = Raise _ |- _ =>
           unfold unpack_keywords in H; repeat case_match; by simplify_eq
       end.
Qed.

(** [install_handler], step by step. *)
Lemma install_handler_unfold s :
  install_handler logging_module client_init_fails s =
  match getitem "LOGGING_SENTRY_LEVEL" (config (app s)) with
  | Raise e => (Raise e, s)
  | Ok name =>
      match getattr_module logging_module name with
      | Raise e => (Raise e, s)
      | Ok lvl =>
          match getitem "LOGGING_SENTRY_PYWARNINGS" (config (app s)) with
          | Raise e => (Raise e, s)
          | Ok pywarnings =>
              match install_sentry_sdk_handler client_init_fails
                      (if negb (truthy pywarnings) then fixed_exclusions else PyNone)
                      lvl s with
              | (Raise e, s') => (Raise e, s')
              | (Ok _, s') =>
                  (Ok tt,
                   if debug (app s')
                   then on_world (λ w,
                          set_werkzeug
                            (mkLogger (Some logging_INFO)
                                      (handlers (werkzeug w) ++ [StreamHandler])) w) s'
                   else s')
              end
          end
      end
  end.
Proof.
  unfold install_handler, config_get. run.
  destruct (getitem "LOGGING_SENTRY_LEVEL" _) as [name|]; [|done].
  destruct (getattr_module _ _) as [lvl|]; [|done]. cbn.
  destruct (getitem "LOGGING_SENTRY_PYWARNINGS" _) as [pywarnings|]; [|done].
  destruct (install_sentry_sdk_handler _ _ _ _) as [[[]|e] s']; [|done].
  by destruct (debug (app s')).
Qed.

Lemma calls_after_init s c call lvl :
  sentry_sdk (world s) = Some c →
  calls (after_init c call lvl s) = calls s ++ [call].
Proof. intros Hsdk. unfold calls. by rewrite Hsdk. Qed.

(** C4: the integration list handed to [sentry_sdk.init] starts with the
    web-framework integration and continues with the task-queue,
    relational-database and cache integrations, in that order, each one
    present exactly when its toggle is true. *)
Theorem init_call_integrations s excl lvl c vc vs vr kw d entries :
  sentry_sdk (world s) = Some c →
  config (app s) !! "LOGGING_SENTRY_CELERY" = Some vc →
  config (app s) !! "LOGGING_SENTRY_SQLALCHEMY" = Some vs →
  config (app s) !! "LOGGING_SENTRY_REDIS" = Some vr →
  config (app s) !! "LOGGING_SENTRY_INIT_KWARGS" = Some kw →
  config (app s) !! "SENTRY_DSN" = Some d →
  unpack_keywords (if truthy kw then kw else PyDict []) = Ok entries →
  ∃ call,
    calls (final (install_sentry_sdk_handler client_init_fails excl lvl s))
      = calls s ++ [call]
    ∧ integrations call =
        FlaskIntegration ::
          (if truthy vc then [CeleryIntegration] else []) ++
          (if truthy vs then [SqlalchemyIntegration] else []) ++
          (if truthy vr then [RedisIntegration] else [])
    ∧ integrations call = spec_integrations (config (app s)).
Proof.
  intros Hsdk Hc Hs Hr Hkw Hd Hunpack.
  rewrite (install_sentry_sdk_handler_run _ _ _ _ _ _ _ _ _ _ Hsdk Hc Hs Hr Hkw Hd Hunpack).
  eexists. split; [|split].
  - cbv zeta. destruct (client_init_fails _); cbn [final snd];
      by apply calls_after_init.
  - cbn. unfold spec_integrations, toggle_on. cbn. rewrite Hc, Hs, Hr.
    by destruct (truthy vc), (truthy vs), (truthy vr).
  - done.
Qed.

(** A run of [install_handler] that gets as far as the client. *)
Lemma install_handler_calls s c name lvl vp vc vs vr kw d entries :
  sentry_sdk (world s) = Some c →
  config (app s) !! "LOGGING_SENTRY_LEVEL" = Some name →
  getattr_module logging_module name = Ok lvl →
  config (app s) !! "LOGGING_SENTRY_PYWARNINGS" = Some vp →
  config (app s) !! "LOGGING_SENTRY_CELERY" = Some vc →
  config (app s) !! "LOGGING_SENTRY_SQLALCHEMY" = Some vs →
  config (app s) !! "LOGGING_SENTRY_REDIS" = Some vr →
  config (app s) !! "LOGGING_SENTRY_INIT_KWARGS" = Some kw →
  config (app s) !! "SENTRY_DSN" = Some d →
  unpack_keywords (if truthy kw then kw else PyDict []) = Ok entries →
  calls (final (install_handler logging_module client_init_fails s)) =
    calls s ++ [mkInitCall d (if negb (truthy vp) then fixed_exclusions else PyNone)
                           (spec_integrations (config (app s)))
                           AddRequestIdSentryPython entries].
Proof.
  intros Hsdk Hname Hlvl Hvp Hc Hs Hr Hkw Hd Hunpack.
  rewrite install_handler_unfold. unfold getitem.
  rewrite Hname, Hlvl, Hvp.
  rewrite (install_sentry_sdk_handler_run _ _ _ _ _ _ _ _ _ _ Hsdk Hc Hs Hr Hkw Hd Hunpack).
  cbv zeta. destruct (client_init_fails _); cbn [final snd].
  - by apply calls_after_init.
  - destruct (debug _); [|by apply calls_after_init].
    unfold calls, after_init. cbn. by rewrite Hsdk.
Qed.

(** C5: with [LOGGING_SENTRY_PYWARNINGS] false the fixed six-entry list
    goes to the client as [in_app_exclude]; with the toggle true, [None]
    does. *)
Theorem init_call_exclusions s c name lvl vp vc vs vr kw d entries :
  sentry_sdk (world s) = Some c →
  config (app s) !! "LOGGING_SENTRY_LEVEL" = Some name →
  getattr_module logging_module name = Ok lvl →
  config (app s) !! "LOGGING_SENTRY_PYWARNINGS" = Some vp →
  config (app s) !! "LOGGING_SENTRY_CELERY" = Some vc →
  config (app s) !! "LOGGING_SENTRY_SQLALCHEMY" = Some vs →
  config (app s) !! "LOGGING_SENTRY_REDIS" = Some vr →
  config (app s) !! "LOGGING_SENTRY_INIT_KWARGS" = Some kw →
  config (app s) !! "SENTRY_DSN" = Some d →
  unpack_keywords (if truthy kw then kw else PyDict []) = Ok entries →
  ∃ call,
    calls (final (install_handler logging_module client_init_fails s))
      = calls s ++ [call]
    ∧ (truthy vp = false →
       in_app_exclude call =
         PyTuple [PyStr "gunicorn"; PyStr "south"; PyStr "sentry.errors";
                  PyStr "django.request"; PyStr "dill"; PyStr "py.warnings"])
    ∧ (truthy vp = true → in_app_exclude call = PyNone).
Proof.
  intros Hsdk Hname Hlvl Hvp Hc Hs Hr Hkw Hd Hunpack.
  eexists. split; [by eapply install_handler_calls|].
  cbn. split; by intros ->.
Qed.

Lemma is_explicit_keyword_spec k :
  is_explicit_keyword k = true ↔ k ∈ explicit_keywords.
Proof.
  unfold is_explicit_keyword. rewrite existsb_exists, list_elem_of_In.
  split.
  - by intros (k' & Hin & ->%String.eqb_eq).
  - intros Hin. exists k. by rewrite String.eqb_refl.
Qed.

(** C10: when [LOGGING_SENTRY_INIT_KWARGS] holds one of the keys [dsn],
    [in_app_exclude], [integrations], [before_send], the call of
    [sentry_sdk.init] raises the interpreter's duplicate-keyword error;
    the client never sees the call, so nothing is overridden. *)
Theorem init_kwargs_duplicate_keyword s excl lvl c vc vs vr d entries k :
  sentry_sdk (world s) = Some c →
  config (app s) !! "LOGGING_SENTRY_CELERY" = Some vc →
  config (app s) !! "LOGGING_SENTRY_SQLALCHEMY" = Some vs →
  config (app s) !! "LOGGING_SENTRY_REDIS" = Some vr →
  config (app s) !! "SENTRY_DSN" = Some d →
  config (app s) !! "LOGGING_SENTRY_INIT_KWARGS" = Some (PyDict entries) →
  k ∈ entries.*1 →
  k ∈ ["dsn"; "in_app_exclude"; "integrations"; "before_send"] →
  ∃ k',
    k' ∈ entries.*1
    ∧ k' ∈ ["dsn"; "in_app_exclude"; "integrations"; "before_send"]
    ∧ install_sentry_sdk_handler client_init_fails excl lvl s =
        (Raise (TypeError (MultipleValuesForKeyword k')), s).
Proof.
  intros Hsdk Hc Hs Hr Hd Hkw Hin Hexplicit.
  destruct (find is_explicit_keyword (entries.*1)) as [k'|] eqn:Hfind.
  - assert (truthy (PyDict entries) = true) as Htruthy.
    { destruct entries; [by apply elem_of_nil in Hin | done]. }
    assert (unpack_keywords (if truthy (PyDict entries) then PyDict entries
                             else PyDict [])
            = Raise (TypeError (MultipleValuesForKeyword k'))) as Hunpack.
    { rewrite Htruthy. unfold unpack_keywords. by rewrite Hfind. }
    apply find_some in Hfind as [Hin' Hk'].
    exists k'. split; [by apply list_elem_of_In|].
    split; [by apply is_explicit_keyword_spec|].
    unfold install_sentry_sdk_handler, import_sentry_sdk, config_get, getitem,
      call_sentry_sdk_init.
    run. cbn -[unpack_keywords truthy].
    repeat first
      [ rewrite Hsdk | rewrite Hc | rewrite Hs | rewrite Hr | rewrite Hkw
      | rewrite Hd | rewrite Hunpack | progress cbn -[unpack_keywords truthy] ].
    by destruct (truthy vc), (truthy vs), (truthy vr).
  - exfalso. apply list_elem_of_In in Hin.
    apply (find_none _ _ Hfind) in Hin.
    apply is_explicit_keyword_spec in Hexplicit. congruence.
Qed.

(** The level lookup of [install_handler] is the only place where an
    [AttributeError] can come from. *)
Lemma install_handler_attribute_error s name :
  config (app s) !! "LOGGING_SENTRY_LEVEL" = Some (PyStr name) →
  (result (install_handler logging_module client_init_fails s)
     = Raise (AttributeError name)
   ↔ logging_module name = None)
  ∧ (logging_module name = None →
     final (install_handler logging_module client_init_fails s) = s).
Proof.
  intros Hname. rewrite install_handler_unfold. unfold getitem.
  rewrite Hname. cbn. destruct (logging_module name) as [lvl|] eqn:Hlvl.
  - split; [|done]. split; [|done]. intros Hraise. exfalso.
    destruct (config (app s) !! "LOGGING_SENTRY_PYWARNINGS") as [vp|]; [|done].
    pose proof (install_sentry_sdk_handler_no_attribute_error s
                  (if negb (truthy vp) then fixed_exclusions else PyNone)
                  lvl name) as Hno.
    destruct (install_sentry_sdk_handler _ _ _ _) as [[[]|e] s']; [done|].
    cbn in Hraise, Hno. congruence.
  - done.
Qed.

(** C8, amended: the configured level name is looked up with
    [getattr(logging, name)], so [install_handler] fails with the
    attribute-lookup error for that name exactly when the [logging] module
    has no attribute of that name, and it fails before any effect.  With a
    [logging] module that has every severity-level name as an attribute, a
    valid severity-level name therefore never fails this way. *)
Theorem install_handler_level_lookup s name :
  config (app s) !! "LOGGING_SENTRY_LEVEL" = Some (PyStr name) →
  (result (install_handler logging_module client_init_fails s)
     = Raise (AttributeError name)
   ↔ logging_module name = None)
  ∧ (logging_module name = None →
     final (install_handler logging_module client_init_fails s) = s)
  ∧ ((∀ level n, assoc level level_table = Some n →
                 logging_module level = Some (PyInt n)) →
     is_level_name name = true →
     result (install_handler logging_module client_init_fails s)
       ≠ Raise (AttributeError name)).
Proof.
  intros Hname.
  destruct (install_handler_attribute_error s name Hname) as [Hiff Hstate].
  split; [exact Hiff|]. split; [exact Hstate|].
  intros Htable Hlevel Hraise. apply Hiff in Hraise.
  unfold is_level_name in Hlevel.
  destruct (assoc name level_table) as [n|] eqn:Hn; [|done].
  rewrite (Htable name n Hn) in Hraise. done.
Qed.

End Install.

(** ** Initialising the application *)

Section Init.

Variable config_module : list (string * pyval).
Variable logging_module : string → option pyval.
Variable client_init_fails : InitCall → option string.

Implicit Types (s : State).

(** [setdefault] keeps a value that is already there. *)
Lemma setdefault_keeps key v (d : gmap string pyval) k x :
  d !! k = Some x → setdefault key v d !! k = Some x.
Proof.
  intros Hk. unfold setdefault.
  destruct (d !! key) eqn:Hkey; [done|].
  rewrite lookup_insert_ne; [done | congruence].
Qed.

(** The merge only fills gaps: a setting of the application wins over the
    default of the module. *)
Lemma merge_defaults_keeps (cfg : gmap string pyval) k x :
  cfg !! k = Some x → merge_defaults config_module cfg !! k = Some x.
Proof.
  unfold merge_defaults. revert cfg.
  induction config_module as [|[key v] rest IH]; intros cfg Hk; cbn; [done|].
  apply IH. destruct (_ || _); [by apply setdefault_keeps | done].
Qed.

(** C1, amended: when the DSN setting is [None] once the defaults are
    merged, [init_app] returns and has done nothing but the merge: the
    logger, the extension registry, the context processors and everything
    outside the application are as before. *)
Theorem init_app_dsn_none s :
  merge_defaults config_module (config (app s)) !! "SENTRY_DSN" = Some PyNone →
  init_app config_module logging_module client_init_fails s =
    (Ok tt, on_app (set_config (merge_defaults config_module (config (app s)))) s)
  ∧ calls (final (init_app config_module logging_module client_init_fails s))
      = calls s
  ∧ extensions (app (final (init_app config_module logging_module
                              client_init_fails s)))
      = extensions (app s)
  ∧ context_processors (app (final (init_app config_module logging_module
                                      client_init_fails s)))
      = context_processors (app s).
Proof.
  intros Hdsn.
  assert (init_app config_module logging_module client_init_fails s =
          (Ok tt, on_app (set_config (merge_defaults config_module (config (app s)))) s))
    as Hrun.
  { unfold init_app, init_config, config_get, getitem. run. cbn.
    by rewrite Hdsn. }
  by rewrite Hrun.
Qed.

(** C3: with a DSN configured and the client library missing, [init_app]
    returns after one warning through [app.logger]; no call reaches a
    client, no extension and no context processor is registered, and
    nothing outside the application changes, whatever the rest of the
    configuration says. *)
Theorem init_app_missing_sdk s d :
  sentry_sdk (world s) = None →
  merge_defaults config_module (config (app s)) !! "SENTRY_DSN" = Some d →
  is_none d = false →
  init_app config_module logging_module client_init_fails s =
    (Ok tt,
     mkState
       (mkApp (merge_defaults config_module (config (app s)))
              (debug (app s))
              (logger (app s) ++ [("WARNING", missing_sdk_warning)])
              (extensions (app s))
              (context_processors (app s)))
       (world s)).
Proof.
  intros Hsdk Hdsn Hset.
  unfold init_app, init_config, config_get, getitem. run. cbn.
  rewrite Hdsn. cbn. rewrite Hset. cbn. by rewrite Hsdk.
Qed.

End Init.

(** *** Start-up on concrete applications *)

Lemma init_call_integrations_witness :
  ∃ call,
    calls (final (install_sentry_sdk_handler Demo.accepting_client PyNone
                    (PyInt 30) Demo.ready)) = calls Demo.ready ++ [call]
    ∧ integrations call =
        [FlaskIntegration; CeleryIntegration; RedisIntegration].
Proof.
  destruct (init_call_integrations Demo.accepting_client Demo.ready PyNone (PyInt 30)
              (Demo.fresh_client PyNone) (PyBool true) (PyBool false) (PyBool true)
              (PyDict []) Demo.some_dsn [])
    as (call & Hcalls & Hlist & _);
    try (vm_compute; reflexivity).
  exists call. split; [exact Hcalls | exact Hlist].
Defined.

Lemma init_call_exclusions_witness :
  (∃ call,
     calls (final (install_handler stdlib_logging Demo.accepting_client Demo.ready))
       = calls Demo.ready ++ [call]
     ∧ in_app_exclude call =
         PyTuple [PyStr "gunicorn"; PyStr "south"; PyStr "sentry.errors";
                  PyStr "django.request"; PyStr "dill"; PyStr "py.warnings"])
  ∧ (∃ call,
       calls (final (install_handler stdlib_logging Demo.accepting_client
                       Demo.ready_pywarnings))
         = calls Demo.ready_pywarnings ++ [call]
       ∧ in_app_exclude call = PyNone).
Proof.
  split.
  - destruct (init_call_exclusions stdlib_logging Demo.accepting_client Demo.ready
                (Demo.fresh_client PyNone) (PyStr "WARNING") (PyInt 30)
                (PyBool false) (PyBool true) (PyBool false) (PyBool true)
                (PyDict []) Demo.some_dsn [])
      as (call & Hcalls & Hoff & _);
      try (vm_compute; reflexivity).
    exists call. split; [exact Hcalls | exact (Hoff eq_refl)].
  - destruct (init_call_exclusions stdlib_logging Demo.accepting_client
                Demo.ready_pywarnings
                (Demo.fresh_client PyNone) (PyStr "WARNING") (PyInt 30)
                (PyBool true) (PyBool true) (PyBool false) (PyBool true)
                (PyDict []) Demo.some_dsn [])
      as (call & Hcalls & _ & Hon);
      try (vm_compute; reflexivity).
    exists call. split; [exact Hcalls | exact (Hon eq_refl)].
Defined.

Lemma init_kwargs_duplicate_keyword_witness :
  ∃ k',
    k' ∈ Demo.clashing_kwargs.*1
    ∧ k' ∈ ["dsn"; "in_app_exclude"; "integrations"; "before_send"]
    ∧ install_sentry_sdk_handler Demo.accepting_client PyNone (PyInt 30)
        Demo.kwargs_clash =
        (Raise (TypeError (MultipleValuesForKeyword k')), Demo.kwargs_clash).
Proof.
  apply (init_kwargs_duplicate_keyword Demo.accepting_client Demo.kwargs_clash
           PyNone (PyInt 30) (Demo.fresh_client PyNone)
           (PyBool true) (PyBool false) (PyBool true) Demo.some_dsn
           Demo.clashing_kwargs "before_send");
    try (vm_compute; reflexivity).
  - cbn. apply list_elem_of_further, list_elem_of_here.
  - do 3 apply list_elem_of_further. apply list_elem_of_here.
Defined.

(** C8 as stated fails: [getLogger] is no severity-level name, yet the
    lookup succeeds, [install_handler] returns, and the function becomes
    the level of the scope. *)
Lemma install_handler_level_counterexample :
  config (app Demo.level_getLogger) !! "LOGGING_SENTRY_LEVEL"
    = Some (PyStr "getLogger")
  ∧ is_level_name "getLogger" = false
  ∧ result (install_handler stdlib_logging Demo.accepting_client
              Demo.level_getLogger) = Ok tt
  ∧ (sentry_sdk (world (final (install_handler stdlib_logging
                                 Demo.accepting_client Demo.level_getLogger))))
      ≫= scope_level
    = Some (PyObj "<function getLogger>").
Proof. repeat split; vm_compute; reflexivity. Qed.

Lemma install_handler_level_lookup_witness :
  result (install_handler stdlib_logging Demo.accepting_client Demo.level_bogus)
    = Raise (AttributeError "BOGUS")
  ∧ final (install_handler stdlib_logging Demo.accepting_client Demo.level_bogus)
    = Demo.level_bogus
  ∧ result (install_handler stdlib_logging Demo.accepting_client Demo.ready)
    ≠ Raise (AttributeError "WARNING").
Proof.
  destruct (install_handler_level_lookup stdlib_logging Demo.accepting_client
              Demo.level_bogus "BOGUS") as (Hiff & Hstate & _).
  - vm_compute; reflexivity.
  - split; [apply Hiff; reflexivity|]. split; [apply Hstate; reflexivity|].
    destruct (install_handler_level_lookup stdlib_logging Demo.accepting_client
                Demo.ready "WARNING") as (_ & _ & Hlevel).
    + vm_compute; reflexivity.
    + apply Hlevel; [|reflexivity].
      intros level n Hn. unfold stdlib_logging. by rewrite Hn.
Defined.

(** C1 as stated fails for the empty string: the guard only tests for
    [None], so the handler is installed, the extension registered and the
    context processor added. *)
Lemma init_app_empty_dsn_counterexample :
  config (app Demo.dsn_empty) !! "SENTRY_DSN" = Some (PyStr "")
  ∧ spec_dsn_unset (PyStr "") = true
  ∧ result (init_app [] stdlib_logging Demo.accepting_client Demo.dsn_empty) = Ok tt
  ∧ length (calls (final (init_app [] stdlib_logging Demo.accepting_client
                            Demo.dsn_empty))) = 1%nat
  ∧ extensions (app (final (init_app [] stdlib_logging Demo.accepting_client
                              Demo.dsn_empty))) !! "invenio-logging-sentry"
    = Some InvenioLoggingSentry
  ∧ context_processors (app (final (init_app [] stdlib_logging
                                      Demo.accepting_client Demo.dsn_empty)))
    = [sentry_app_context_closure].
Proof. repeat split; vm_compute; reflexivity. Qed.

Lemma init_app_dsn_none_witness :
  init_app Demo.defaults stdlib_logging Demo.accepting_client Demo.unconfigured =
    (Ok tt,
     on_app (set_config (merge_defaults Demo.defaults
                           (config (app Demo.unconfigured))))
            Demo.unconfigured).
Proof.
  apply (init_app_dsn_none Demo.defaults stdlib_logging Demo.accepting_client
           Demo.unconfigured).
  vm_compute; reflexivity.
Defined.

Lemma init_app_missing_sdk_witness :
  logger (app (final (init_app [] stdlib_logging Demo.accepting_client
                        Demo.ready_without_sdk)))
    = [("WARNING", missing_sdk_warning)]
  ∧ extensions (app (final (init_app [] stdlib_logging Demo.accepting_client
                              Demo.ready_without_sdk))) = ∅
  ∧ context_processors (app (final (init_app [] stdlib_logging
                                      Demo.accepting_client
                                      Demo.ready_without_sdk))) = [].
Proof.
  rewrite (init_app_missing_sdk [] stdlib_logging Demo.accepting_client
             Demo.ready_without_sdk Demo.some_dsn);
    [ | reflexivity | vm_compute; reflexivity | reflexivity ].
  repeat split.
Defined.

(** * Further properties *)

(** ** Merging the defaults *)

Section Defaults.

Variable config_module : list (string * pyval).

Implicit Types (cfg : gmap string pyval) (s : State).

Lemma setdefault_lookup key v cfg k :
  setdefault key v cfg !! k =
    match cfg !! k with
    | Some x => Some x
    | None => if String.eqb key k then Some v else None
    end.
Proof.
  unfold setdefault. destruct (String.eqb_spec key k) as [->|Hne].
  - destruct (cfg !! k) eqn:Hk; [done|]. by rewrite lookup_insert_eq.
  - destruct (cfg !! key); [by destruct (cfg !! k)|].
    rewrite lookup_insert_ne by done. by destruct (cfg !! k).
Qed.

(** What [init_config] leaves under each name: the application's own
    value when it has one, else the module's value when the name is one of
    the Sentry settings, else nothing. *)
Lemma merge_defaults_lookup cfg k :
  merge_defaults config_module cfg !! k =
    match cfg !! k with
    | Some x => Some x
    | None => if is_sentry_setting k then assoc k config_module else None
    end.
Proof.
  unfold merge_defaults. revert cfg.
  induction config_module as [|[key v] rest IH]; intros cfg; cbn.
  - destruct (cfg !! k), (is_sentry_setting k); done.
  - rewrite IH. fold (is_sentry_setting key).
    destruct (String.eqb_spec key k) as [->|Hne].
    + destruct (is_sentry_setting k) eqn:Hk; [|done].
      rewrite setdefault_lookup, String.eqb_refl. by destruct (cfg !! k).
    + destruct (is_sentry_setting key); [|done].
      rewrite setdefault_lookup.
      destruct (cfg !! k); [done|].
      by rewrite (proj2 (String.eqb_neq key k) Hne).
Qed.

End Defaults.

Section DefaultsMerged.

Variable config_module : list (string * pyval).

Implicit Types (cfg : gmap string pyval) (s : State).

(** X1: [init_config] never overwrites a setting the application already
    has, whatever the module [config] holds under that name. *)
Theorem init_config_keeps_settings s k x :
  config (app s) !! k = Some x →
  result (init_config config_module s) = Ok tt
  ∧ config (app (final (init_config config_module s))) !! k = Some x.
Proof.
  intros Hk. split; [done|]. cbn. by rewrite merge_defaults_lookup, Hk.
Qed.

(** X2: a name the application has not set ends up in [app.config] exactly
    when it starts with [LOGGING_SENTRY] or [SENTRY_] and the module
    [config] has it, and then with the module's value; no other name is
    added. *)
Theorem init_config_fills_gaps s k v :
  config (app s) !! k = None →
  (config (app (final (init_config config_module s))) !! k = Some v
   ↔ (String.prefix "LOGGING_SENTRY" k || String.prefix "SENTRY_" k) = true
     ∧ assoc k config_module = Some v).
Proof.
  intros Hk. cbn. rewrite merge_defaults_lookup, Hk.
  unfold is_sentry_setting. destruct (_ || _).
  - split; [by intros -> | by intros [_ ->]].
  - split; [done | by intros [? _]].
Qed.

Lemma merge_defaults_idempotent cfg :
  merge_defaults config_module (merge_defaults config_module cfg)
    = merge_defaults config_module cfg.
Proof.
  apply map_eq. intros k. rewrite !merge_defaults_lookup.
  destruct (cfg !! k); [done|].
  destruct (is_sentry_setting k); [|done]. by destruct (assoc k config_module).
Qed.

(** X3: [init_config] is idempotent: a second merge changes nothing. *)
Theorem init_config_idempotent s :
  init_config config_module (final (init_config config_module s))
    = init_config config_module s.
Proof.
  unfold init_config. run. unfold on_app, set_config. cbn.
  by rewrite merge_defaults_idempotent.
Qed.

End DefaultsMerged.

Lemma init_config_keeps_settings_witness :
  config (app (final (init_config Demo.defaults
                        (mkState (Demo.application Demo.own_level) Demo.startup))))
    !! "LOGGING_SENTRY_LEVEL" = Some (PyStr "ERROR").
Proof.
  apply (init_config_keeps_settings Demo.defaults
           (mkState (Demo.application Demo.own_level) Demo.startup)).
  vm_compute; reflexivity.
Defined.

Lemma init_config_fills_gaps_witness :
  config (app (final (init_config Demo.defaults
                        (mkState (Demo.application Demo.own_level) Demo.startup))))
    !! "SENTRY_DSN" = Some PyNone
  ∧ ¬ config (app (final (init_config Demo.defaults
                        (mkState (Demo.application Demo.own_level) Demo.startup))))
      !! "__name__" = Some (PyStr "invenio_logging.config").
Proof.
  split.
  - apply (init_config_fills_gaps Demo.defaults
             (mkState (Demo.application Demo.own_level) Demo.startup)
             "SENTRY_DSN" PyNone).
    + vm_compute; reflexivity.
    + split; vm_compute; reflexivity.
  - intros Hadded.
    apply (init_config_fills_gaps Demo.defaults
             (mkState (Demo.application Demo.own_level) Demo.startup)
             "__name__" (PyStr "invenio_logging.config")) in Hadded
      as [Hprefix _].
    + vm_compute in Hprefix. discriminate.
    + vm_compute; reflexivity.
Defined.

(** ** The hook and the context processor, continued *)

Section HookFrame.

Implicit Types (ev : gmap string pyval) (w : World) (hint : pyval).

(** X4: whatever the outcome, the hook leaves every entry of the event
    other than [tags] as it was, and a tag list keeps all its tags in
    order, gaining at most the one [request_id] pair at its end. *)
Theorem hook_touches_only_tags hint ev w :
  (∀ k, k ≠ "tags" →
     event (final (add_request_id_sentry_python hint (mkHookState ev w))) !! k
       = ev !! k)
  ∧ (∀ items, ev !! "tags" = Some (PyList items) →
       event (final (add_request_id_sentry_python hint (mkHookState ev w))) !! "tags"
         = Some (PyList items)
       ∨ ∃ rid,
           event (final (add_request_id_sentry_python hint (mkHookState ev w)))
             !! "tags"
           = Some (PyList (items ++ [PyList [PyStr "request_id"; rid]]))).
Proof.
  rewrite hook_event_after. split.
  - intros k Hk. repeat case_match; try done. by rewrite lookup_insert_ne.
  - intros items Htags.
    rewrite (get_or_empty_list_tags ev items) by eauto. cbn.
    repeat case_match; eauto. right. eexists. by rewrite lookup_insert_eq.
Qed.

(** X5: the hook never suppresses or replaces an event: when it returns,
    it returns the event dictionary it was given, as it stands after the
    run. *)
Theorem hook_returns_event hint ev w ev' :
  result (add_request_id_sentry_python hint (mkHookState ev w)) = Ok ev' →
  ev' = event (final (add_request_id_sentry_python hint (mkHookState ev w))).
Proof.
  rewrite hook_result, hook_event_after. intros Hret.
  repeat case_match; by simplify_eq.
Qed.

(** X6: the hook never touches the client or the [werkzeug] logger, never
    binds or unbinds [g], and in [g] changes nothing but
    [sentry_event_id]. *)
Theorem hook_world_frame hint ev w :
  sentry_sdk (hworld (final (add_request_id_sentry_python hint (mkHookState ev w))))
    = sentry_sdk w
  ∧ werkzeug (hworld (final (add_request_id_sentry_python hint (mkHookState ev w))))
    = werkzeug w
  ∧ match g w,
          g (hworld (final (add_request_id_sentry_python hint (mkHookState ev w))))
    with
    | Some ns, Some ns' =>
        ∀ attr, attr ≠ "sentry_event_id" → ns' !! attr = ns !! attr
    | None, None => True
    | _, _ => False
    end.
Proof.
  rewrite hook_world_after.
  destruct (result _), (g w) as [ns|] eqn:Hg, (sentry_sdk w) as [c|] eqn:Hc;
    try destruct (is_none _); cbn; rewrite ?Hg, ?Hc; repeat split; try done.
  intros attr Hattr. by rewrite lookup_insert_ne.
Qed.

(** X7: the hook does not look for a tag it has added before: a second
    pass over the same event in the same request appends the pair a second
    time. *)
Theorem hook_twice_appends_twice hint ev w ns rid items c :
  g w = Some ns →
  ns !! "request_id" = Some rid →
  ev !! "tags" = Some (PyList items) →
  sentry_sdk w = Some c →
  event (final (add_request_id_sentry_python hint
                  (final (add_request_id_sentry_python hint (mkHookState ev w)))))
    = <["tags" := PyList (items ++ [PyList [PyStr "request_id"; rid];
                                    PyList [PyStr "request_id"; rid]])]> ev.
Proof.
  intros Hg Hrid Htags Hc.
  pose proof (hook_event_after hint ev w) as Hev.
  pose proof (hook_world_after hint ev w) as Hw.
  pose proof (hook_result hint ev w) as Hres.
  rewrite Hg, Hrid, (get_or_empty_list_tags ev items) in Hev, Hres by eauto.
  cbn in Hev, Hres. rewrite Hc in Hres. rewrite Hres, Hg, Hc in Hw.
  destruct (final (add_request_id_sentry_python hint (mkHookState ev w)))
    as [ev1 w1]. cbn in Hev, Hw. subst ev1.
  rewrite hook_event_after.
  assert (∃ ns1, g w1 = Some ns1 ∧ ns1 !! "request_id" = Some rid)
    as (ns1 & -> & ->).
  { destruct (is_none (last_event_id c)); subst w1; cbn.
    - eauto.
    - eexists. split; [done|]. by rewrite lookup_insert_ne. }
  rewrite (get_or_empty_list_tags _ (items ++ [PyList [PyStr "request_id"; rid]]))
    by (left; apply lookup_insert_eq).
  cbn. by rewrite insert_insert_eq, <- app_assoc.
Qed.

(** X8: outside an application context the hook changes nothing at all,
    and it returns the event exactly when the client is there and reports
    no event id. *)
Theorem hook_outside_context hint ev w :
  g w = None →
  final (add_request_id_sentry_python hint (mkHookState ev w)) = mkHookState ev w
  ∧ (result (add_request_id_sentry_python hint (mkHookState ev w)) = Ok ev
     ↔ ∃ c, sentry_sdk w = Some c ∧ is_none (last_event_id c) = true).
Proof.
  intros Hg.
  pose proof (hook_event_after hint ev w) as Hev.
  pose proof (hook_world_after hint ev w) as Hw.
  rewrite Hg in Hev, Hw. rewrite hook_result, Hg. split.
  - destruct (final _) as [ev1 w1]. cbn in *. subst ev1.
    f_equal. rewrite Hw. by repeat case_match.
  - destruct (sentry_sdk w) as [c|].
    + destruct (is_none (last_event_id c)) eqn:Hid.
      * split; [eauto | done].
      * split; [done | by intros (c' & [= <-] & ?); congruence].
    + split; [done | by intros (c' & [=] & _)].
Qed.

(** The context processor, case by case. *)
Lemma sentry_app_context_run w :
  sentry_app_context w =
    match sentry_sdk w with
    | None => (Raise (AttributeError "last_event_id"), w)
    | Some c =>
        match g w with
        | None => (Raise outside_context, w)
        | Some ns =>
            (Ok {[ "sentry_event_id" := last_event_id c ]},
             set_g (Some (<["sentry_event_id" := last_event_id c]> ns)) w)
        end
    end.
Proof. hook_cases. by rewrite lookup_insert_eq. Qed.

(** X9: the context processor is idempotent: a second call returns the
    same outcome and leaves the world as the first call left it. *)
Theorem sentry_app_context_idempotent w :
  sentry_app_context (final (sentry_app_context w)) = sentry_app_context w.
Proof.
  rewrite (sentry_app_context_run w).
  destruct (sentry_sdk w) as [c|] eqn:Hc; cbn.
  - destruct (g w) as [ns|] eqn:Hg; cbn.
    + rewrite sentry_app_context_run. cbn. rewrite Hc.
      unfold set_g. cbn. by rewrite insert_insert_eq.
    + by rewrite sentry_app_context_run, Hc, Hg.
  - by rewrite sentry_app_context_run, Hc.
Qed.

(** X10: the context processor returns a mapping exactly when the client
    library is there and [g] is bound; when it raises it leaves the world
    as it was. *)
Theorem sentry_app_context_returns_iff w :
  ((∃ m, result (sentry_app_context w) = Ok m)
   ↔ is_Some (sentry_sdk w) ∧ is_Some (g w))
  ∧ (∀ e, result (sentry_app_context w) = Raise e →
          final (sentry_app_context w) = w).
Proof.
  rewrite sentry_app_context_run.
  destruct (sentry_sdk w) as [c|], (g w) as [ns|]; cbn; split; try done.
  - split; eauto.
  - split; [by intros [? [=]] | by intros [_ [? [=]]]].
  - split; [by intros [? [=]] | by intros [[? [=]] _]].
  - split; [by intros [? [=]] | by intros [[? [=]] _]].
Qed.

(** X11: once the hook has returned with a non-null event id, the context
    processor exposes that very id and changes nothing. *)
Theorem sentry_app_context_after_hook hint ev w c ev' :
  sentry_sdk w = Some c →
  is_none (last_event_id c) = false →
  result (add_request_id_sentry_python hint (mkHookState ev w)) = Ok ev' →
  sentry_app_context
      (hworld (final (add_request_id_sentry_python hint (mkHookState ev w))))
    = (Ok {[ "sentry_event_id" := last_event_id c ]},
       hworld (final (add_request_id_sentry_python hint (mkHookState ev w)))).
Proof.
  intros Hc Hid Hret. rewrite hook_world_after, Hret, Hc, Hid.
  rewrite hook_result, Hc, Hid in Hret.
  destruct (g w) as [ns|] eqn:Hg; [|done].
  rewrite sentry_app_context_run. cbn. rewrite Hc.
  unfold set_g. cbn. by rewrite insert_insert_eq.
Qed.

End HookFrame.

Lemma hook_touches_only_tags_witness :
  event (final (add_request_id_sentry_python PyNone
                  (mkHookState Demo.tagged_event Demo.in_request))) !! "message"
    = Demo.tagged_event !! "message"
  ∧ (event (final (add_request_id_sentry_python PyNone
                     (mkHookState Demo.tagged_event Demo.in_request))) !! "tags"
       = Some (PyList [Demo.old_tag])
     ∨ ∃ rid,
         event (final (add_request_id_sentry_python PyNone
                         (mkHookState Demo.tagged_event Demo.in_request))) !! "tags"
         = Some (PyList ([Demo.old_tag] ++ [PyList [PyStr "request_id"; rid]]))).
Proof.
  destruct (hook_touches_only_tags PyNone Demo.tagged_event Demo.in_request)
    as [Hother Htags].
  split.
  - apply Hother. discriminate.
  - apply Htags. vm_compute; reflexivity.
Defined.

Lemma hook_returns_event_witness :
  <["tags" := PyList [Demo.old_tag; PyList [PyStr "request_id"; PyStr "r1"]]]>
    Demo.tagged_event
  = event (final (add_request_id_sentry_python PyNone
                    (mkHookState Demo.tagged_event Demo.in_request))).
Proof.
  apply (hook_returns_event PyNone Demo.tagged_event Demo.in_request).
  vm_compute; reflexivity.
Defined.

Lemma hook_world_frame_witness :
  match g (hworld (final (add_request_id_sentry_python PyNone
                            (mkHookState Demo.tagged_event Demo.in_request))))
  with
  | Some ns' => ns' !! "request_id" = Some (PyStr "r1")
  | None => False
  end.
Proof.
  destruct (hook_world_frame PyNone Demo.tagged_event Demo.in_request)
    as (_ & _ & Hg).
  change (g Demo.in_request)
    with (Some ({[ "request_id" := PyStr "r1" ]} : gmap string pyval)) in Hg.
  destruct (g (hworld (final (add_request_id_sentry_python PyNone
                                (mkHookState Demo.tagged_event Demo.in_request)))))
    as [ns'|]; [|exact Hg].
  rewrite Hg by discriminate. vm_compute; reflexivity.
Defined.

Lemma hook_twice_appends_twice_witness :
  event (final (add_request_id_sentry_python PyNone
                  (final (add_request_id_sentry_python PyNone
                            (mkHookState Demo.tagged_event Demo.in_request)))))
    = <["tags" := PyList [Demo.old_tag;
                          PyList [PyStr "request_id"; PyStr "r1"];
                          PyList [PyStr "request_id"; PyStr "r1"]]]>
        Demo.tagged_event.
Proof.
  apply (hook_twice_appends_twice PyNone Demo.tagged_event Demo.in_request
           {[ "request_id" := PyStr "r1" ]} (PyStr "r1") [Demo.old_tag]
           (Demo.fresh_client (PyStr "e1")));
    vm_compute; reflexivity.
Defined.

Lemma hook_outside_context_witness :
  final (add_request_id_sentry_python PyNone
           (mkHookState Demo.tagged_event Demo.no_context))
    = mkHookState Demo.tagged_event Demo.no_context
  ∧ ¬ result (add_request_id_sentry_python PyNone
                (mkHookState Demo.tagged_event Demo.no_context))
      = Ok Demo.tagged_event.
Proof.
  destruct (hook_outside_context PyNone Demo.tagged_event Demo.no_context eq_refl)
    as [Hfinal Hiff].
  split; [exact Hfinal|].
  intros Hret. apply Hiff in Hret as (c & [= <-] & Hnone). discriminate.
Defined.

Lemma sentry_app_context_returns_iff_witness :
  (∃ m, result (sentry_app_context Demo.marker_behind) = Ok m)
  ∧ final (sentry_app_context Demo.no_context) = Demo.no_context.
Proof.
  split.
  - apply (proj1 (sentry_app_context_returns_iff Demo.marker_behind)).
    split; eexists; reflexivity.
  - apply (proj2 (sentry_app_context_returns_iff Demo.no_context) outside_context).
    vm_compute; reflexivity.
Defined.

Lemma sentry_app_context_after_hook_witness :
  sentry_app_context
      (hworld (final (add_request_id_sentry_python PyNone
                        (mkHookState Demo.tagged_event Demo.in_request))))
    = (Ok {[ "sentry_event_id" := PyStr "e1" ]},
       hworld (final (add_request_id_sentry_python PyNone
                        (mkHookState Demo.tagged_event Demo.in_request)))).
Proof.
  apply (sentry_app_context_after_hook PyNone Demo.tagged_event Demo.in_request
           (Demo.fresh_client (PyStr "e1"))
           (<["tags" := PyList [Demo.old_tag; PyList [PyStr "request_id"; PyStr "r1"]]]>
              Demo.tagged_event));
    vm_compute; reflexivity.
Defined.

(** ** Installation and start-up, continued *)

Section InstallOutcome.

Variable logging_module : string → option pyval.
Variable client_init_fails : InitCall → option string.

Implicit Types (s : State) (c : Client).

(** A run of [install_sentry_sdk_handler] either fails before the client
    is entered and changes nothing, or enters the client once. *)
Lemma install_sentry_sdk_handler_outcome s excl lvl :
  (∃ e, install_sentry_sdk_handler client_init_fails excl lvl s = (Raise e, s)
        ∧ ∀ msg, e ≠ ClientError msg)
  ∨ (∃ c call,
       sentry_sdk (world s) = Some c
       ∧ match client_init_fails call with
         | None =>
             install_sentry_sdk_handler client_init_fails excl lvl s
               = (Ok tt, after_init c call (Some lvl) s)
         | Some msg =>
             install_sentry_sdk_handler client_init_fails excl lvl s
               = (Raise (ClientError msg), after_init c call (scope_level c) s)
         end).
Proof.
  install_cases.
  all: first
    [ left; eexists; split; [by destruct s | done]
    | match goal with
      | Hc : sentry_sdk (world ?s0) = Some ?c,
        H : client_init_fails ?call = _ |- _ =>
          right; exists c, call; split; [done|]; rewrite H; reflexivity
      end
    | match goal with
      | H : unpack_keywords _ = Raise ?e |- _ =>
          left; exists e; split; [by destruct s|];
          unfold unpack_keywords in H; intros msg ->;
          repeat case_match; by simplify_eq
      end ].
Qed.

(** A run of [install_handler] likewise: it fails without any effect, or
    it enters the client once; only a run the client accepts goes on to
    the [werkzeug] logger. *)
Lemma install_handler_outcome s :
  (∃ e, install_handler logging_module client_init_fails s = (Raise e, s)
        ∧ ∀ msg, e ≠ ClientError msg)
  ∨ (∃ c call lvl,
       sentry_sdk (world s) = Some c
       ∧ match client_init_fails call with
         | None =>
             install_handler logging_module client_init_fails s
               = (Ok tt,
                  if debug (app s)
                  then on_world (λ w,
                         set_werkzeug
                           (mkLogger (Some logging_INFO)
                                     (handlers (werkzeug w) ++ [StreamHandler])) w)
                         (after_init c call (Some lvl) s)
                  else after_init c call (Some lvl) s)
         | Some msg =>
             install_handler logging_module client_init_fails s
               = (Raise (ClientError msg), after_init c call (scope_level c) s)
         end).
Proof.
  rewrite install_handler_unfold.
  destruct (getitem "LOGGING_SENTRY_LEVEL" _) as [name|e] eqn:Hname.
  2: { left. exists e. split; [done|]. unfold getitem in Hname.
       intros msg ->. by repeat case_match. }
  destruct (getattr_module _ _) as [lvl|e] eqn:Hlvl.
  2: { left. exists e. split; [done|]. unfold getattr_module in Hlvl.
       intros msg ->. by repeat case_match. }
  destruct (getitem "LOGGING_SENTRY_PYWARNINGS" _) as [vp|e] eqn:Hvp.
  2: { left. exists e. split; [done|]. unfold getitem in Hvp.
       intros msg ->. by repeat case_match. }
  destruct (install_sentry_sdk_handler_outcome s
              (if negb (truthy vp) then fixed_exclusions else PyNone) lvl)
    as [(e & -> & He) | (c & call & Hc & Hrun)].
  - left. eauto.
  - right. exists c, call, lvl. split; [done|].
    destruct (client_init_fails call); by rewrite Hrun.
Qed.

(** X12: when [install_handler] fails with anything but an error of the
    client itself (a missing setting, an unknown level name, bad extra
    keywords, a failed import), it has changed nothing: no call reached
    the client and no handler was added. *)
Theorem install_handler_fails_quietly s e :
  result (install_handler logging_module client_init_fails s) = Raise e →
  (∀ msg, e ≠ ClientError msg) →
  final (install_handler logging_module client_init_fails s) = s.
Proof.
  intros Hraise Hkind.
  destruct (install_handler_outcome s)
    as [(e' & -> & _) | (c & call & lvl & _ & Hrun)]; [done|].
  destruct (client_init_fails call) as [msg|]; rewrite Hrun in Hraise;
    cbn in Hraise; [|done].
  injection Hraise as <-. by destruct (Hkind msg).
Qed.

(** X13: in debug mode a run of [install_handler] that returns has set
    the [werkzeug] logger to INFO and given it one more stream handler;
    outside debug mode, and whenever [install_handler] raises, that logger
    is exactly as before. *)
Theorem install_handler_werkzeug s :
  werkzeug (world (final (install_handler logging_module client_init_fails s))) =
    match result (install_handler logging_module client_init_fails s) with
    | Ok _ =>
        if debug (app s)
        then mkLogger (Some 20) (handlers (werkzeug (world s)) ++ [StreamHandler])
        else werkzeug (world s)
    | Raise _ => werkzeug (world s)
    end.
Proof.
  destruct (install_handler_outcome s)
    as [(e' & -> & _) | (c & call & lvl & _ & Hrun)]; [done|].
  destruct (client_init_fails call) as [msg|]; rewrite Hrun; cbn; [done|].
  by destruct (debug (app s)).
Qed.

Lemma unpack_keywords_ok entries :
  Forall (λ k, k ∉ explicit_keywords) (entries.*1) →
  unpack_keywords (PyDict entries) = Ok entries.
Proof.
  intros Hfree. unfold unpack_keywords.
  destruct (find is_explicit_keyword (entries.*1)) as [k|] eqn:Hfind; [|done].
  apply find_some in Hfind as [Hin Hk].
  apply is_explicit_keyword_spec in Hk.
  rewrite Forall_forall in Hfree. by destruct (Hfree k (proj2 (list_elem_of_In _ _) Hin)).
Qed.

(** X14: the client receives the configured DSN, the exclusions it was
    handed, the hook as [before_send], and the extra keyword arguments of
    [LOGGING_SENTRY_INIT_KWARGS] verbatim and in order; a falsy value of
    that setting stands for no extra arguments. *)
Theorem init_call_forwards_settings s excl lvl c vc vs vr kw d entries :
  sentry_sdk (world s) = Some c →
  config (app s) !! "LOGGING_SENTRY_CELERY" = Some vc →
  config (app s) !! "LOGGING_SENTRY_SQLALCHEMY" = Some vs →
  config (app s) !! "LOGGING_SENTRY_REDIS" = Some vr →
  config (app s) !! "LOGGING_SENTRY_INIT_KWARGS" = Some kw →
  config (app s) !! "SENTRY_DSN" = Some d →
  (kw = PyDict entries
     ∧ Forall (λ k, k ∉ ["dsn"; "in_app_exclude"; "integrations"; "before_send"])
              (entries.*1))
    ∨ (truthy kw = false ∧ entries = []) →
  ∃ call,
    calls (final (install_sentry_sdk_handler client_init_fails excl lvl s))
      = calls s ++ [call]
    ∧ dsn call = d
    ∧ in_app_exclude call = excl
    ∧ before_send call = AddRequestIdSentryPython
    ∧ extra call = entries.
Proof.
  intros Hsdk Hc Hs Hr Hkw Hd Hshape.
  assert (unpack_keywords (if truthy kw then kw else PyDict []) = Ok entries)
    as Hunpack.
  { destruct Hshape as [[-> Hfree] | [-> ->]]; [|done].
    destruct entries; [done|]. by apply unpack_keywords_ok. }
  rewrite (install_sentry_sdk_handler_run _ _ _ _ _ _ _ _ _ _ _
             Hsdk Hc Hs Hr Hkw Hd Hunpack).
  eexists. split.
  - cbv zeta. destruct (client_init_fails _); cbn [final snd];
      by apply calls_after_init.
  - done.
Qed.

(** X15: extra keyword arguments that are truthy but no mapping make the
    call itself fail with a [TypeError]; the client is never entered and
    nothing changes. *)
Theorem init_kwargs_not_a_mapping s excl lvl c vc vs vr kw d :
  sentry_sdk (world s) = Some c →
  config (app s) !! "LOGGING_SENTRY_CELERY" = Some vc →
  config (app s) !! "LOGGING_SENTRY_SQLALCHEMY" = Some vs →
  config (app s) !! "LOGGING_SENTRY_REDIS" = Some vr →
  config (app s) !! "LOGGING_SENTRY_INIT_KWARGS" = Some kw →
  config (app s) !! "SENTRY_DSN" = Some d →
  truthy kw = true →
  (∀ entries, kw ≠ PyDict entries) →
  install_sentry_sdk_handler client_init_fails excl lvl s =
    (Raise (TypeError ArgumentAfterStarStarNotAMapping), s).
Proof.
  intros Hsdk Hc Hs Hr Hkw Hd Htruthy Hshape.
  assert (unpack_keywords (if truthy kw then kw else PyDict [])
          = Raise (TypeError ArgumentAfterStarStarNotAMapping)) as Hunpack.
  { rewrite Htruthy. destruct kw; try done. by destruct (Hshape entries). }
  unfold install_sentry_sdk_handler, import_sentry_sdk, config_get, getitem,
    call_sentry_sdk_init.
  run. cbn -[unpack_keywords truthy].
  repeat first
    [ rewrite Hsdk | rewrite Hc | rewrite Hs | rewrite Hr | rewrite Hkw
    | rewrite Hd | rewrite Hunpack | progress cbn -[unpack_keywords truthy] ].
  by destruct s.
Qed.

End InstallOutcome.

Section InitOutcome.

Variable config_module : list (string * pyval).
Variable logging_module : string → option pyval.
Variable client_init_fails : InitCall → option string.

Implicit Types (s : State).

(** [init_app], step by step. *)
Lemma init_app_unfold s :
  init_app config_module logging_module client_init_fails s =
    let merged := merge_defaults config_module (config (app s)) in
    let s1 := on_app (set_config merged) s in
    match getitem "SENTRY_DSN" merged with
    | Raise e => (Raise e, s1)
    | Ok d =>
        if is_none d then (Ok tt, s1)
        else
          match sentry_sdk (world s) with
          | None =>
              (Ok tt,
               on_app (λ a, set_logger
                              (logger a ++ [("WARNING", missing_sdk_warning)]) a) s1)
          | Some _ =>
              match install_handler logging_module client_init_fails s1 with
              | (Raise e, s2) => (Raise e, s2)
              | (Ok _, s2) =>
                  (Ok tt,
                   on_app (λ a, set_context_processors
                                  (context_processors a ++ [sentry_app_context_closure])
                                  a)
                     (on_app (λ a, set_extensions
                                     (<["invenio-logging-sentry" := InvenioLoggingSentry]>
                                        (extensions a)) a) s2))
              end
          end
    end.
Proof.
  unfold init_app, init_config, config_get. run. cbn.
  destruct (getitem "SENTRY_DSN" _) as [d|]; [|done]. cbn.
  destruct (is_none d); [done|]. cbn.
  destruct (sentry_sdk (world s)); [|done].
  by destruct (install_handler _ _ _) as [[[]|e] s2].
Qed.

(** X16: when neither the application nor the module [config] defines
    [SENTRY_DSN], [init_app] fails with the [KeyError] of that name right
    after the merge, with nothing else done. *)
Theorem init_app_dsn_missing s :
  config (app s) !! "SENTRY_DSN" = None →
  assoc "SENTRY_DSN" config_module = None →
  init_app config_module logging_module client_init_fails s =
    (Raise (KeyError "SENTRY_DSN"),
     on_app (set_config (merge_defaults config_module (config (app s)))) s).
Proof.
  intros Happ Hmodule. rewrite init_app_unfold. cbv zeta. unfold getitem.
  by rewrite merge_defaults_lookup, Happ, Hmodule.
Qed.

(** X17: [init_app] only ever adds: the configuration is the merged one,
    the debug flag and [g] are untouched, and the log records, the context
    processors, the calls seen by the client and the handlers of the
    [werkzeug] logger all keep what they had as a prefix; no extension
    other than [invenio-logging-sentry] is touched. *)
Theorem init_app_only_adds s :
  config (app (final (init_app config_module logging_module client_init_fails s)))
    = merge_defaults config_module (config (app s))
  ∧ debug (app (final (init_app config_module logging_module client_init_fails s)))
    = debug (app s)
  ∧ g (world (final (init_app config_module logging_module client_init_fails s)))
    = g (world s)
  ∧ logger (app s) `prefix_of`
      logger (app (final (init_app config_module logging_module
                            client_init_fails s)))
  ∧ context_processors (app s) `prefix_of`
      context_processors (app (final (init_app config_module logging_module
                                        client_init_fails s)))
  ∧ calls s `prefix_of`
      calls (final (init_app config_module logging_module client_init_fails s))
  ∧ handlers (werkzeug (world s)) `prefix_of`
      handlers (werkzeug (world (final (init_app config_module logging_module
                                          client_init_fails s))))
  ∧ (∀ name, name ≠ "invenio-logging-sentry" →
       extensions (app (final (init_app config_module logging_module
                                 client_init_fails s))) !! name
         = extensions (app s) !! name).
Proof.
  rewrite init_app_unfold. cbv zeta.
  destruct (getitem "SENTRY_DSN" _) as [d|]; [|by repeat split].
  destruct (is_none d); [by repeat split|].
  destruct (sentry_sdk (world s)) as [c0|] eqn:Hsdk.
  2: { cbn. repeat split; try done. by apply prefix_app_r. }
  destruct (install_handler_outcome logging_module client_init_fails
              (on_app (set_config (merge_defaults config_module (config (app s)))) s))
    as [(e & -> & _) | (c & call & lvl & Hc & Hrun)]; [by repeat split|].
  cbn in Hc. rewrite Hsdk in Hc. injection Hc as <-.
  assert (calls s `prefix_of` init_calls c0 ++ [call]) as Hcalls.
  { unfold calls. rewrite Hsdk. by apply prefix_app_r. }
  destruct (client_init_fails call) as [msg|]; rewrite Hrun.
  - cbn. by repeat split.
  - cbn. destruct (debug (app s)) eqn:Hdebug; cbn; repeat split; try done.
    all: try by apply prefix_app_r.
    all: intros name Hname; by rewrite lookup_insert_ne.
Qed.

End InitOutcome.

(** *** A fully configured application *)

Section Configured.

Variable config_module : list (string * pyval).
Variable logging_module : string → option pyval.
Variable client_init_fails : InitCall → option string.

Variable s : State.
Variable c : Client.
Variables name lvl vp vc vs vr kw d : pyval.
Variable entries : list (string * pyval).

Local Notation "'merged'" := (merge_defaults config_module (config (app s))).

(** The client library is there and, once the defaults are merged, every
    setting the installation reads is present and well-formed. *)
Hypothesis Hsdk : sentry_sdk (world s) = Some c.
Hypothesis Hdsn : merged !! "SENTRY_DSN" = Some d.
Hypothesis Hset : is_none d = false.
Hypothesis Hname : merged !! "LOGGING_SENTRY_LEVEL" = Some name.
Hypothesis Hlvl : getattr_module logging_module name = Ok lvl.
Hypothesis Hvp : merged !! "LOGGING_SENTRY_PYWARNINGS" = Some vp.
Hypothesis Hvc : merged !! "LOGGING_SENTRY_CELERY" = Some vc.
Hypothesis Hvs : merged !! "LOGGING_SENTRY_SQLALCHEMY" = Some vs.
Hypothesis Hvr : merged !! "LOGGING_SENTRY_REDIS" = Some vr.
Hypothesis Hkw : merged !! "LOGGING_SENTRY_INIT_KWARGS" = Some kw.
Hypothesis Hunpack :
  unpack_keywords (if truthy kw then kw else PyDict []) = Ok entries.

(** The one call such an application makes. *)
Local Notation "'the_call'" := (planned_call merged d vp entries).

Lemma install_handler_configured s1 c1 :
  config (app s1) = merged →
  sentry_sdk (world s1) = Some c1 →
  install_handler logging_module client_init_fails s1 =
    match client_init_fails the_call with
    | Some msg =>
        (Raise (ClientError msg), after_init c1 the_call (scope_level c1) s1)
    | None =>
        (Ok tt,
         if debug (app s1)
         then on_world (λ w,
                set_werkzeug
                  (mkLogger (Some logging_INFO)
                            (handlers (werkzeug w) ++ [StreamHandler])) w)
                (after_init c1 the_call (Some lvl) s1)
         else after_init c1 the_call (Some lvl) s1)
    end.
Proof.
  intros Hcfg Hsdk1.
  rewrite install_handler_unfold. unfold getitem.
  rewrite Hcfg, Hname, Hlvl, Hvp.
  rewrite (install_sentry_sdk_handler_run client_init_fails s1 _ lvl c1
             vc vs vr kw d entries) by (by rewrite ?Hcfg).
  cbv zeta. rewrite Hcfg. fold the_call.
  by destruct (client_init_fails the_call).
Qed.

Lemma init_app_configured s0 c0 :
  merge_defaults config_module (config (app s0)) = merged →
  sentry_sdk (world s0) = Some c0 →
  init_app config_module logging_module client_init_fails s0 =
    match client_init_fails the_call with
    | Some msg =>
        (Raise (ClientError msg),
         after_init c0 the_call (scope_level c0) (on_app (set_config merged) s0))
    | None =>
        (Ok tt,
         mkState
           (mkApp merged (debug (app s0)) (logger (app s0))
                  (<["invenio-logging-sentry" := InvenioLoggingSentry]>
                     (extensions (app s0)))
                  (context_processors (app s0) ++ [sentry_app_context_closure]))
           (mkWorld
              (Some (mkClient (init_calls c0 ++ [the_call]) (Some lvl)
                              (last_event_id c0)))
              (g (world s0))
              (if debug (app s0)
               then mkLogger (Some logging_INFO)
                             (handlers (werkzeug (world s0)) ++ [StreamHandler])
               else werkzeug (world s0))))
    end.
Proof.
  intros Hmerged Hsdk0. rewrite init_app_unfold. cbv zeta.
  rewrite Hmerged. unfold getitem. rewrite Hdsn, Hset, Hsdk0.
  rewrite (install_handler_configured (on_app (set_config merged) s0) c0)
    by done.
  destruct (client_init_fails the_call); [done|]. cbn.
  destruct (debug (app s0)) eqn:Hdebug;
    unfold on_app, on_world, after_init, set_context_processors, set_extensions,
      set_werkzeug, set_sentry_sdk, set_config; cbn;
    by rewrite Hdebug.
Qed.

(** X19: when the client rejects the call, [init_app] fails with the
    client's error; the client has seen the call, but the scope level is
    not set, no extension and no context processor is registered, and the
    [werkzeug] logger is not touched even in debug mode. *)
Theorem init_app_client_rejects msg :
  client_init_fails the_call = Some msg →
  init_app config_module logging_module client_init_fails s =
    (Raise (ClientError msg),
     mkState (set_config merged (app s))
             (set_sentry_sdk
                (Some (mkClient (init_calls c ++ [the_call]) (scope_level c)
                                (last_event_id c)))
                (world s))).
Proof.
  intros Hreject. rewrite (init_app_configured s c) by done.
  by rewrite Hreject.
Qed.

End Configured.

(** *** Installation and start-up on concrete applications, continued *)

Lemma install_handler_fails_quietly_witness :
  final (install_handler stdlib_logging Demo.accepting_client Demo.level_bogus)
    = Demo.level_bogus.
Proof.
  apply (install_handler_fails_quietly stdlib_logging Demo.accepting_client
           Demo.level_bogus (AttributeError "BOGUS")).
  - vm_compute; reflexivity.
  - intros msg. discriminate.
Defined.

Lemma init_call_forwards_settings_witness :
  ∃ call,
    calls (final (install_sentry_sdk_handler Demo.accepting_client PyNone
                    (PyInt 30) Demo.ready_kwargs))
      = calls Demo.ready_kwargs ++ [call]
    ∧ dsn call = Demo.some_dsn
    ∧ in_app_exclude call = PyNone
    ∧ before_send call = AddRequestIdSentryPython
    ∧ extra call = [("environment", PyStr "prod"); ("debug", PyBool false)].
Proof.
  apply (init_call_forwards_settings Demo.accepting_client Demo.ready_kwargs
           PyNone (PyInt 30) (Demo.fresh_client PyNone)
           (PyBool true) (PyBool false) (PyBool true)
           (PyDict Demo.extra_kwargs) Demo.some_dsn Demo.extra_kwargs);
    try (vm_compute; reflexivity).
  left. split; [reflexivity|].
  repeat constructor; intros Hin; apply list_elem_of_In in Hin; cbn in Hin;
    intuition discriminate.
Defined.

Lemma init_kwargs_not_a_mapping_witness :
  install_sentry_sdk_handler Demo.accepting_client PyNone (PyInt 30)
      Demo.kwargs_not_a_mapping
    = (Raise (TypeError ArgumentAfterStarStarNotAMapping),
       Demo.kwargs_not_a_mapping).
Proof.
  apply (init_kwargs_not_a_mapping Demo.accepting_client Demo.kwargs_not_a_mapping
           PyNone (PyInt 30) (Demo.fresh_client PyNone)
           (PyBool true) (PyBool false) (PyBool true)
           (PyList [PyStr "environment"]) Demo.some_dsn);
    try (vm_compute; reflexivity).
  intros entries. discriminate.
Defined.

Lemma init_app_dsn_missing_witness :
  init_app [] stdlib_logging Demo.accepting_client Demo.unconfigured
    = (Raise (KeyError "SENTRY_DSN"),
       on_app (set_config (merge_defaults [] (config (app Demo.unconfigured))))
              Demo.unconfigured).
Proof.
  apply (init_app_dsn_missing [] stdlib_logging Demo.accepting_client
           Demo.unconfigured); reflexivity.
Defined.

Lemma init_app_only_adds_witness :
  extensions (app (final (init_app [] stdlib_logging Demo.accepting_client
                            Demo.ready))) !! "invenio-i18n"
    = extensions (app Demo.ready) !! "invenio-i18n".
Proof.
  apply (init_app_only_adds [] stdlib_logging Demo.accepting_client Demo.ready).
  discriminate.
Defined.

Lemma init_app_client_rejects_witness :
  result (init_app [] stdlib_logging Demo.rejecting_client Demo.ready)
    = Raise (ClientError "Unsupported scheme")
  ∧ extensions (app (final (init_app [] stdlib_logging Demo.rejecting_client
                              Demo.ready))) = ∅
  ∧ context_processors (app (final (init_app [] stdlib_logging
                                      Demo.rejecting_client Demo.ready))) = [].
Proof.
  unshelve epose proof
    (init_app_client_rejects [] stdlib_logging Demo.rejecting_client
       Demo.ready (Demo.fresh_client PyNone) (PyStr "WARNING") (PyInt 30)
       (PyBool false) (PyBool true) (PyBool false) (PyBool true)
       (PyDict []) Demo.some_dsn [] _ _ _ _ _ _ _ _ _ _ _
       "Unsupported scheme" _) as Hrun;
    try (vm_compute; reflexivity).
  rewrite Hrun. repeat split.
Defined.

(** *** What a returned [init_app] has done *)

Section InitReturns.

Variable config_module : list (string * pyval).
Variable logging_module : string → option pyval.
Variable client_init_fails : InitCall → option string.

Implicit Types (s : State) (c : Client).

(** The state after a run of [init_app] that got past both guards and
    returned. *)
Lemma init_app_returns s c d :
  sentry_sdk (world s) = Some c →
  merge_defaults config_module (config (app s)) !! "SENTRY_DSN" = Some d →
  is_none d = false →
  result (init_app config_module logging_module client_init_fails s) = Ok tt →
  ∃ call lvl,
    client_init_fails call = None
    ∧ final (init_app config_module logging_module client_init_fails s) =
        mkState
          (mkApp (merge_defaults config_module (config (app s)))
                 (debug (app s)) (logger (app s))
                 (<["invenio-logging-sentry" := InvenioLoggingSentry]>
                    (extensions (app s)))
                 (context_processors (app s) ++ [sentry_app_context_closure]))
          (mkWorld
             (Some (mkClient (init_calls c ++ [call]) (Some lvl) (last_event_id c)))
             (g (world s))
             (if debug (app s)
              then mkLogger (Some logging_INFO)
                            (handlers (werkzeug (world s)) ++ [StreamHandler])
              else werkzeug (world s))).
Proof.
  intros Hsdk Hdsn Hset. rewrite init_app_unfold. cbv zeta.
  unfold getitem. rewrite Hdsn, Hset, Hsdk.
  destruct (install_handler_outcome logging_module client_init_fails
              (on_app (set_config (merge_defaults config_module (config (app s)))) s))
    as [(e & -> & _) | (c' & call & lvl & Hc' & Hrun)]; [done|].
  cbn in Hc'. rewrite Hsdk in Hc'. injection Hc' as <-.
  destruct (client_init_fails call) as [msg|] eqn:Hcall; rewrite Hrun; [done|].
  intros _. exists call, lvl. split; [done|]. cbn.
  destruct (debug (app s)) eqn:Hdebug;
    unfold on_app, on_world, after_init, set_context_processors, set_extensions,
      set_werkzeug, set_sentry_sdk, set_config; cbn;
    by rewrite Hdebug.
Qed.

(** X18: registration is all or nothing.  When [init_app] returns on an
    application with a DSN set and the client library present, the client
    has accepted exactly one more call and has its scope level set, the
    extension is registered under [invenio-logging-sentry], the context
    processor comes last in the list, and nothing is logged; when
    [init_app] raises, the extension registry, the context processors and
    the log are as before. *)
Theorem init_app_all_or_nothing s :
  (∀ c d,
     sentry_sdk (world s) = Some c →
     merge_defaults config_module (config (app s)) !! "SENTRY_DSN" = Some d →
     is_none d = false →
     result (init_app config_module logging_module client_init_fails s) = Ok tt →
     ∃ call lvl,
       client_init_fails call = None
       ∧ sentry_sdk (world (final (init_app config_module logging_module
                                     client_init_fails s)))
         = Some (mkClient (init_calls c ++ [call]) (Some lvl) (last_event_id c))
       ∧ extensions (app (final (init_app config_module logging_module
                                   client_init_fails s)))
         = <["invenio-logging-sentry" := InvenioLoggingSentry]> (extensions (app s))
       ∧ context_processors (app (final (init_app config_module logging_module
                                           client_init_fails s)))
         = context_processors (app s) ++ [sentry_app_context_closure]
       ∧ logger (app (final (init_app config_module logging_module
                               client_init_fails s)))
         = logger (app s))
  ∧ (∀ e,
       result (init_app config_module logging_module client_init_fails s)
         = Raise e →
       extensions (app (final (init_app config_module logging_module
                                 client_init_fails s)))
         = extensions (app s)
       ∧ context_processors (app (final (init_app config_module logging_module
                                           client_init_fails s)))
         = context_processors (app s)
       ∧ logger (app (final (init_app config_module logging_module
                               client_init_fails s)))
         = logger (app s)).
Proof.
  split.
  - intros c d Hsdk Hdsn Hset Hret.
    destruct (init_app_returns s c d Hsdk Hdsn Hset Hret)
      as (call & lvl & Hcall & ->).
    by exists call, lvl.
  - intros e. rewrite init_app_unfold. cbv zeta.
    destruct (getitem "SENTRY_DSN" _) as [d|]; [|done].
    destruct (is_none d); [done|].
    destruct (sentry_sdk (world s)) as [c|]; [|done].
    destruct (install_handler_outcome logging_module client_init_fails
                (on_app (set_config (merge_defaults config_module (config (app s)))) s))
      as [(e' & -> & _) | (c' & call & lvl & _ & Hrun)]; [done|].
    destruct (client_init_fails call) as [msg|]; rewrite Hrun; [done|].
    by destruct (debug (app s)).
Qed.

(** X20: [init_app] does not guard against a second run: when it returns
    on an application with a DSN set and the client library present, and
    returns again on the application it has just initialised, the client
    has been entered twice and the context processor is in the list
    twice. *)
Theorem init_app_twice_registers_twice s c d :
  sentry_sdk (world s) = Some c →
  merge_defaults config_module (config (app s)) !! "SENTRY_DSN" = Some d →
  is_none d = false →
  result (init_app config_module logging_module client_init_fails s) = Ok tt →
  result (init_app config_module logging_module client_init_fails
            (final (init_app config_module logging_module client_init_fails s)))
    = Ok tt →
  (∃ first second,
     calls (final (init_app config_module logging_module client_init_fails
                     (final (init_app config_module logging_module
                               client_init_fails s))))
       = calls s ++ [first; second])
  ∧ context_processors
      (app (final (init_app config_module logging_module client_init_fails
                     (final (init_app config_module logging_module
                               client_init_fails s)))))
    = context_processors (app s)
        ++ [sentry_app_context_closure; sentry_app_context_closure].
Proof.
  intros Hsdk Hdsn Hset Hret Hagain.
  destruct (init_app_returns s c d Hsdk Hdsn Hset Hret)
    as (first & lvl & _ & Hfinal).
  rewrite Hfinal in Hagain |- *.
  eapply init_app_returns in Hagain as (second & lvl' & _ & ->);
    [ | reflexivity | cbn; by rewrite merge_defaults_idempotent | done ].
  cbn. split.
  - exists first, second. unfold calls. rewrite Hsdk. cbn.
    by rewrite <- app_assoc.
  - by rewrite <- app_assoc.
Qed.

End InitReturns.

Lemma init_app_all_or_nothing_witness :
  (∃ call lvl,
     Demo.accepting_client call = None
     ∧ sentry_sdk (world (final (init_app [] stdlib_logging Demo.accepting_client
                                   Demo.ready)))
       = Some (mkClient [call] (Some lvl) PyNone)
     ∧ extensions (app (final (init_app [] stdlib_logging Demo.accepting_client
                                 Demo.ready)))
       = <["invenio-logging-sentry" := InvenioLoggingSentry]> ∅
     ∧ context_processors (app (final (init_app [] stdlib_logging
                                         Demo.accepting_client Demo.ready)))
       = [sentry_app_context_closure]
     ∧ logger (app (final (init_app [] stdlib_logging Demo.accepting_client
                             Demo.ready))) = [])
  ∧ (extensions (app (final (init_app [] stdlib_logging Demo.rejecting_client
                               Demo.ready))) = ∅
     ∧ context_processors (app (final (init_app [] stdlib_logging
                                         Demo.rejecting_client Demo.ready))) = []
     ∧ logger (app (final (init_app [] stdlib_logging Demo.rejecting_client
                             Demo.ready))) = []).
Proof.
  split.
  - apply (proj1 (init_app_all_or_nothing [] stdlib_logging Demo.accepting_client
                    Demo.ready)
             (Demo.fresh_client PyNone) Demo.some_dsn);
      vm_compute; reflexivity.
  - apply (proj2 (init_app_all_or_nothing [] stdlib_logging Demo.rejecting_client
                    Demo.ready)
             (ClientError "Unsupported scheme")).
    vm_compute; reflexivity.
Defined.

Lemma init_app_twice_registers_twice_witness :
  (∃ first second,
     calls (final (init_app [] stdlib_logging Demo.accepting_client
                     (final (init_app [] stdlib_logging Demo.accepting_client
                               Demo.ready))))
       = calls Demo.ready ++ [first; second])
  ∧ context_processors
      (app (final (init_app [] stdlib_logging Demo.accepting_client
                     (final (init_app [] stdlib_logging Demo.accepting_client
                               Demo.ready)))))
    = context_processors (app Demo.ready)
        ++ [sentry_app_context_closure; sentry_app_context_closure].
Proof.
  apply (init_app_twice_registers_twice [] stdlib_logging Demo.accepting_client
           Demo.ready (Demo.fresh_client PyNone) Demo.some_dsn);
    vm_compute; reflexivity.
Defined.
